(** * MyStock dashboard ([app.py]): per-instrument fetch, position metrics,
    portfolio totals and stop-loss classification.

    Numbers are IEEE 754 binary64 throughout, as in the program: Python's
    [float] and numpy's [float64] are both binary64, modelled by Rocq's
    primitive [float].  The two differ in one operation only.  Python's own
    [/] raises [ZeroDivisionError] on a zero divisor ([py_truediv]); numpy's
    scalar [/] follows IEEE 754 and returns an infinity or a NaN, with a
    [RuntimeWarning] and no exception ([np_truediv]). *)

From Stdlib Require Import Floats ZArith List String Bool Lia.
Import ListNotations.

#[local] Set Warnings "-inexact-float".
#[local] Open Scope float_scope.

(** ** Exceptions and the effects of one refresh *)

Inductive exn : Type :=
| ZeroDivisionError
| IndexError.

Inductive result (A : Type) : Type :=
| Ok (a : A)
| Raise (e : exn).
Arguments Ok {A} a.
Arguments Raise {A} e.

(** What a run does to the outside world, in program order: the call to the
    data provider, a line printed by the fetcher's handler, and
    [time.sleep]. *)
Inductive event : Type :=
| EvFetch (code : string)
| EvPrint (line : string)
| EvSleep (seconds : float).

(** A computation of [main]: the events it emitted, and its value or the
    exception that escaped it. *)
Definition M (A : Type) : Type := (list event * result A)%type.

Definition ret {A} (a : A) : M A := ([], Ok a).

Definition emit (ev : event) : M unit := ([ev], Ok tt).

Definition bind {A B} (m : M A) (k : A -> M B) : M B :=
  match m with
  | (tr, Ok a) => let (tr', r) := k a in (tr ++ tr', r)
  | (tr, Raise e) => (tr, Raise e)
  end.

Definition lift {A} (r : result A) : M A := ([], r).

Notation "x <- m ;; k" := (bind m (fun x => k))
  (at level 61, m at next level, right associativity).
Notation "m ;;; k" := (bind m (fun _ => k))
  (at level 61, right associativity).

Definition events {A} (m : M A) : list event := fst m.
Definition outcome {A} (m : M A) : result A := snd m.

(** ** Arithmetic *)

(** [x / y] on two Python numbers, one of which is a [float]. *)
Definition py_truediv (x y : float) : result float :=
  if y =? 0 then Raise ZeroDivisionError else Ok (x / y).

(** [x / y] on numpy [float64] scalars. *)
Definition np_truediv (x y : float) : float := x / y.

(** The running sum [t += x] started at [0.0], over [xs] in order. *)
Definition fsum (xs : list float) : float := fold_left PrimFloat.add xs 0.

(** ** Data *)

(** One entry of [holdings.json].  The three numbers take part in arithmetic
    only next to a [float], so a JSON integer is read at its [float] value. *)
Record Holding : Type := {
  code : string;
  name : string;
  quantity : float;
  cost_price : float;
  stop_loss_pct : float
}.

(** One row of the provider's daily frame (日期, 开盘, 最高, 最低, 收盘); its
    numeric columns are [float64]. *)
Record HistoryRow : Type := {
  row_date : string;
  row_open : float;
  row_high : float;
  row_low : float;
  close : float
}.

Definition DataFrame : Type := list HistoryRow.

(** What [ak.stock_zh_a_hist] does when called: it raises (the text is
    [str(e)]), or it returns a frame, oldest row first. *)
Inductive provider_reply : Type :=
| ProviderRaised (e : string)
| ProviderFrame (df : DataFrame).

(** The dict returned by [get_stock_data_individual]. *)
Record QuoteData : Type := {
  q_code : string;
  q_name : string;
  current_price : float;
  pct_change : float;
  day_profit_per_share : float;
  history_df : DataFrame
}.

(** [df.iloc[i]]: a position, counted from the end when negative. *)
Definition iloc (df : DataFrame) (i : Z) : result HistoryRow :=
  let n := Z.of_nat (List.length df) in
  let j := if (i <? 0)%Z then (i + n)%Z else i in
  if ((0 <=? j) && (j <? n))%Z
  then match nth_error df (Z.to_nat j) with
       | Some r => Ok r
       | None => Raise IndexError
       end
  else Raise IndexError.

Definition exn_text (e : exn) : string :=
  match e with
  | ZeroDivisionError => "float division by zero"
  | IndexError => "single positional indexer is out-of-bounds"
  end.

(** ** [get_stock_data_individual] *)

(** The [try] block once the provider has returned [df]. *)
Definition quote_of_frame (code name : string) (df : DataFrame)
  : result (option QuoteData) :=
  match df with
  | [] => Ok None
  | _ :: _ =>
    match iloc df (-1) with
    | Raise e => Raise e
    | Ok latest_row =>
      if (2 <=? List.length df)%nat then
        match iloc df (-2) with
        | Raise e => Raise e
        | Ok prev_row =>
          let prev_close := close prev_row in
          let current_price := close latest_row in
          let pct_change :=
            np_truediv (current_price - prev_close) prev_close * 100 in
          let day_profit_per_share := current_price - prev_close in
          Ok (Some {| q_code := code; q_name := name;
                      current_price := current_price;
                      pct_change := pct_change;
                      day_profit_per_share := day_profit_per_share;
                      history_df := df |})
        end
      else
        let current_price := close latest_row in
        Ok (Some {| q_code := code; q_name := name;
                    current_price := current_price;
                    pct_change := 0;
                    day_profit_per_share := 0;
                    history_df := df |})
    end
  end.

Definition failure_line (code e : string) : string :=
  ("获取 " ++ code ++ " 失败: " ++ e)%string.

(** The whole function on the provider's [reply]: the returned value, and
    the lines printed by [except Exception as e]. *)
Definition get_stock_data_individual (code name : string)
  (reply : provider_reply) : option QuoteData * list string :=
  match reply with
  | ProviderRaised e => (None, [failure_line code e])
  | ProviderFrame df =>
    match quote_of_frame code name df with
    | Ok data => (data, [])
    | Raise e => (None, [failure_line code (exn_text e)])
    end
  end.

(** ** The body of [main]'s loop *)

Inductive RiskStatus : Type :=
| Safe      (* "安全" *)
| Breach    (* "⚠️ 触发止损" *)
| Warning.  (* "⚡ 接近止损" *)

Definition risk_text (r : RiskStatus) : string :=
  match r with
  | Safe => "安全"
  | Breach => "⚠️ 触发止损"
  | Warning => "⚡ 接近止损"
  end.

(** Lines 139-144. *)
Definition distance (profit_pct stop_loss_pct : float) : float :=
  profit_pct / 100 - stop_loss_pct.

Definition risk_status (profit_pct stop_loss_pct : float) : RiskStatus :=
  let distance := distance profit_pct stop_loss_pct in
  if distance <? 0 then Breach
  else if distance <? 0.03 then Warning
  else Safe.

(** The locals of lines 124-131. *)
Record PositionMetrics : Type := {
  market_val : float;
  profit : float;
  profit_pct : float;
  day_profit : float
}.

Definition position_metrics (stock : Holding) (data : QuoteData)
  : result PositionMetrics :=
  let qty := quantity stock in
  let cost := cost_price stock in
  let current := current_price data in
  let market_val := current * qty in
  let profit := (current - cost) * qty in
  match py_truediv (current - cost) cost with
  | Raise e => Raise e
  | Ok ratio =>
    let profit_pct := ratio * 100 in
    let day_profit := day_profit_per_share data * qty in
    Ok {| market_val := market_val; profit := profit;
          profit_pct := profit_pct; day_profit := day_profit |}
  end.

(** The dict appended to [portfolio_data].  涨跌幅 is kept as the number the
    program renders with two decimals. *)
Record PortfolioRow : Type := {
  r_code : string;          (* 代码 *)
  r_name : string;          (* 名称 *)
  r_quantity : float;       (* 数量 *)
  r_cost : float;           (* 成本 *)
  r_current : float;        (* 现价 *)
  r_pct_change : float;     (* 涨跌幅 *)
  r_profit : float;         (* 持仓盈亏 *)
  r_profit_pct : float;     (* 盈亏率% *)
  r_day_profit : float;     (* 当日盈亏 *)
  r_risk : RiskStatus;      (* 风险状态 *)
  r_stop_loss : float       (* 止损线% *)
}.

Definition portfolio_row (stock : Holding) (data : QuoteData)
  (pm : PositionMetrics) : PortfolioRow :=
  {| r_code := code stock;
     r_name := name stock;
     r_quantity := quantity stock;
     r_cost := cost_price stock;
     r_current := current_price data;
     r_pct_change := pct_change data;
     r_profit := profit pm;
     r_profit_pct := profit_pct pm;
     r_day_profit := day_profit pm;
     r_risk := risk_status (profit_pct pm) (stop_loss_pct stock);
     r_stop_loss := stop_loss_pct stock * 100 |}.

(** The variables the loop updates. *)
Record LoopState : Type := {
  portfolio_data : list PortfolioRow;
  total_asset : float;
  total_profit : float;
  total_day_profit : float;
  history_cache : list (string * DataFrame)
}.

(** Lines 96-106. *)
Definition initial_state : LoopState :=
  {| portfolio_data := [];
     total_asset := 0;
     total_profit := 0;
     total_day_profit := 0;
     history_cache := [] |}.

(** [d[k] = v] on a dict kept as an association list in insertion order. *)
Fixpoint dict_set {V} (d : list (string * V)) (k : string) (v : V)
  : list (string * V) :=
  match d with
  | [] => [(k, v)]
  | (k', v') :: d' =>
    if String.eqb k' k then (k, v) :: d' else (k', v') :: dict_set d' k v
  end.

(** Lines 119-158, the branch [if data:] on a fetched quote. *)
Definition accumulate (st : LoopState) (stock : Holding) (data : QuoteData)
  : result LoopState :=
  match position_metrics stock data with
  | Raise e => Raise e
  | Ok pm =>
    Ok {| portfolio_data :=
            portfolio_data st ++ [portfolio_row stock data pm];
          total_asset := total_asset st + market_val pm;
          total_profit := total_profit st + profit pm;
          total_day_profit := total_day_profit st + day_profit pm;
          history_cache :=
            dict_set (history_cache st) (code stock) (history_df data) |}
  end.

(** The call at line 117, with what it does to the outside. *)
Definition call_fetch (stock : Holding) (reply : provider_reply)
  : M (option QuoteData) :=
  let (data, printed) :=
    get_stock_data_individual (code stock) (name stock) reply in
  (EvFetch (code stock) :: map EvPrint printed, Ok data).

(** One iteration, lines 109-161.  [reply] is what the provider does when
    this iteration calls it.  The progress text and bar (lines 113-114) are
    display only. *)
Definition loop_body (st : LoopState) (input : Holding * provider_reply)
  : M LoopState :=
  let (stock, reply) := input in
  data <- call_fetch stock reply ;;
  st' <- match data with
         | Some d => lift (accumulate st stock d)
         | None => ret st
         end ;;
  emit (EvSleep 0.2) ;;;
  ret st'.

(** [for i, stock in enumerate(holdings)]. *)
Fixpoint loop (st : LoopState) (inputs : list (Holding * provider_reply))
  : M LoopState :=
  match inputs with
  | [] => ret st
  | input :: rest =>
    st' <- loop_body st input ;;
    loop st' rest
  end.

(** What the page shows at the end of a run. *)
Inductive page : Type :=
| Stopped                       (* [st.stop()] at line 90 *)
| NoData (message : string)     (* [st.error] then [st.stop()], 167-169 *)
| Dashboard (st : LoopState).   (* cards, table and chart from [st] *)

Definition no_data_message : string :=
  "无法获取任何数据，请检查网络连接。".

(** One refresh cycle: lines 96-169, then the rendering from the state. *)
Definition cycle (inputs : list (Holding * provider_reply)) : M page :=
  st <- loop initial_state inputs ;;
  match portfolio_data st with
  | [] => ret (NoData no_data_message)
  | _ :: _ => ret (Dashboard st)
  end.

(** [main] on the loaded holdings, each with the provider's reply to its
    call.  A click on the refresh button starts [main] again. *)
Definition main (inputs : list (Holding * provider_reply)) : M page :=
  match inputs with
  | [] => ret Stopped
  | _ :: _ => cycle inputs
  end.

(** ** Vocabulary of the statements *)

(** The value the fetcher returns for an input of the loop. *)
Definition fetched (input : Holding * provider_reply) : option QuoteData :=
  fst (get_stock_data_individual
         (code (fst input)) (name (fst input)) (snd input)).

Definition succeeded (input : Holding * provider_reply) : bool :=
  match fetched input with Some _ => true | None => false end.

(** The holdings whose fetch returned a quote, each with it, in list
    order. *)
Fixpoint successes (inputs : list (Holding * provider_reply))
  : list (Holding * QuoteData) :=
  match inputs with
  | [] => []
  | input :: rest =>
    match fetched input with
    | Some data => (fst input, data) :: successes rest
    | None => successes rest
    end
  end.

(** The four position figures as the specification writes them. *)
Definition market_value (p : Holding * QuoteData) : float :=
  current_price (snd p) * quantity (fst p).

Definition unrealized_profit (p : Holding * QuoteData) : float :=
  (current_price (snd p) - cost_price (fst p)) * quantity (fst p).

Definition unrealized_profit_pct (p : Holding * QuoteData) : float :=
  (current_price (snd p) - cost_price (fst p)) / cost_price (fst p) * 100.

Definition day_profit_of (p : Holding * QuoteData) : float :=
  day_profit_per_share (snd p) * quantity (fst p).

Definition metrics (p : Holding * QuoteData) : PositionMetrics :=
  {| market_val := market_value p;
     profit := unrealized_profit p;
     profit_pct := unrealized_profit_pct p;
     day_profit := day_profit_of p |}.

(** The row the table shows for a fetched holding. *)
Definition row_of (p : Holding * QuoteData) : PortfolioRow :=
  portfolio_row (fst p) (snd p) (metrics p).

(** The loop state after a fetched holding has been taken in. *)
Definition absorb (st : LoopState) (p : Holding * QuoteData) : LoopState :=
  {| portfolio_data := portfolio_data st ++ [row_of p];
     total_asset := total_asset st + market_value p;
     total_profit := total_profit st + unrealized_profit p;
     total_day_profit := total_day_profit st + day_profit_of p;
     history_cache :=
       dict_set (history_cache st) (code (fst p)) (history_df (snd p)) |}.

(** The specification's assumption on holdings: [costPrice > 0]. *)
Definition positive_costs (inputs : list (Holding * provider_reply)) : Prop :=
  Forall (fun input => (0 <? cost_price (fst input)) = true) inputs.

(** The events of an iteration up to the end of its fetch. *)
Definition fetch_events (input : Holding * provider_reply) : list event :=
  EvFetch (code (fst input))
  :: map EvPrint
       (snd (get_stock_data_individual
               (code (fst input)) (name (fst input)) (snd input))).

(** The events of an iteration that reaches its [time.sleep]. *)
Definition iteration_events (input : Holding * provider_reply)
  : list event :=
  fetch_events input ++ [EvSleep 0.2].

(** A trace in which no fetch follows another without a [sleep(0.2)] in
    between; [pending] says that a fetch has been issued since the last
    such sleep. *)
Fixpoint spaced (pending : bool) (tr : list event) : bool :=
  match tr with
  | [] => true
  | EvFetch _ :: tr' => negb pending && spaced true tr'
  | EvPrint _ :: tr' => spaced pending tr'
  | EvSleep s :: tr' =>
    if PrimFloat.Leibniz.eqb s 0.2 then spaced false tr'
    else spaced pending tr'
  end.

(** ** Sample inputs *)

Definition flat_row (day : string) (c : float) : HistoryRow :=
  {| row_date := day; row_open := c; row_high := c; row_low := c;
     close := c |}.

(** The holding of the specification's scenarios A and B. *)
Definition alpha : Holding :=
  {| code := "X"; name := "Alpha"; quantity := 100; cost_price := 10.00;
     stop_loss_pct := 0.08 |}.

Definition beta : Holding :=
  {| code := "Y"; name := "Beta"; quantity := 50; cost_price := 4.00;
     stop_loss_pct := 0.1 |}.

Definition falling : DataFrame :=
  [flat_row "2024-01-02" 9.00; flat_row "2024-01-03" 9.50].

Definition rising : DataFrame :=
  [flat_row "2024-01-02" 9.90; flat_row "2024-01-03" 10.20].

(** A history whose second-to-last close is zero. *)
Definition from_zero : DataFrame :=
  [flat_row "2024-01-02" 0; flat_row "2024-01-03" 5].

(** ** After the loop: table colours and chart selection *)

(** [d[k]], and [k in d] when it is not [None]. *)
Fixpoint dict_get {V} (d : list (string * V)) (k : string) : option V :=
  match d with
  | [] => None
  | (k', v) :: d' => if String.eqb k' k then Some v else dict_get d' k
  end.

(** [sub in s] on text. *)
Fixpoint contains (sub s : string) : bool :=
  String.prefix sub s ||
  match s with
  | EmptyString => false
  | String _ s' => contains sub s'
  end.

(** The keys of a row's dict, lines 147-157: the columns of the table. *)
Definition column_names : list string :=
  ["代码"; "名称"; "数量"; "成本"; "现价"; "涨跌幅"; "持仓盈亏"; "盈亏率%";
   "当日盈亏"; "风险状态"; "止损线%"]%string.

(** [highlight], lines 182-186: one style per cell of the row. *)
Definition highlight (row : PortfolioRow) : list string :=
  let val := risk_text (r_risk row) in
  if contains "触发止损" val
  then repeat "background-color: #ffcccc"%string (List.length column_names)
  else if contains "接近止损" val
  then repeat "background-color: #fff4cc"%string (List.length column_names)
  else repeat ""%string (List.length column_names).

(** [next(f(x) for x in l if p(x))]; [None] stands for [StopIteration]. *)
Definition next_where {A B} (f : A -> B) (p : A -> bool) (l : list A)
  : option B :=
  option_map f (find p l).

(** What the chart is drawn from, lines 208-214. *)
Record ChartSelection : Type := {
  sel_code : string;
  sel_cost : float;
  df_hist : option DataFrame   (* [None]: [sel_code] is not in the cache *)
}.

(** Lines 208-214 for the name [sel_name] picked in the select box, whose
    options are the names of the rows. *)
Definition chart_selection (holdings : list Holding) (st : LoopState)
  (sel_name : string) : option ChartSelection :=
  match next_where r_code (fun item => String.eqb (r_name item) sel_name)
          (portfolio_data st) with
  | None => None
  | Some sel_code =>
    match next_where cost_price (fun item => String.eqb (code item) sel_code)
            holdings with
    | None => None
    | Some sel_cost =>
      Some {| sel_code := sel_code; sel_cost := sel_cost;
              df_hist := dict_get (history_cache st) sel_code |}
    end
  end.

(** The codes the provider was called with, in order, and the number of
    sleeps. *)
Fixpoint fetch_calls (tr : list event) : list string :=
  match tr with
  | [] => []
  | EvFetch c :: tr' => c :: fetch_calls tr'
  | _ :: tr' => fetch_calls tr'
  end.

Fixpoint sleeps (tr : list event) : nat :=
  match tr with
  | [] => 0
  | EvSleep _ :: tr' => S (sleeps tr')
  | _ :: tr' => sleeps tr'
  end.

(** The lines printed during a run, in order. *)
Fixpoint printed_lines (tr : list event) : list string :=
  match tr with
  | [] => []
  | EvPrint l :: tr' => l :: printed_lines tr'
  | _ :: tr' => printed_lines tr'
  end.

(** The line the fetcher prints for a reply, if any. *)
Definition error_line (input : Holding * provider_reply) : list string :=
  match snd input with
  | ProviderRaised e => [failure_line (code (fst input)) e]
  | ProviderFrame _ => []
  end.

(** ** Holdings as loaded: entries whose keys may be missing *)

(** An entry of [holdings.json] as the dict [json.load] returns, with [None]
    for an absent key.  A value that is present has the JSON type the
    program expects: text for the code and the name, a number for the
    rest. *)
Record RawHolding : Type := {
  raw_code : option string;
  raw_name : option string;
  raw_quantity : option float;
  raw_cost_price : option float;
  raw_stop_loss_pct : option float
}.

Inductive raised : Type :=
| KeyError (key : string)
| Uncaught (e : exn).

Inductive run (A : Type) : Type :=
| Done (a : A)
| Failed (e : raised).
Arguments Done {A} a.
Arguments Failed {A} e.

(** [stock[key]]. *)
Definition getitem {A} (key : string) (field : option A) : run A :=
  match field with
  | Some v => Done v
  | None => Failed (KeyError key)
  end.

Definition of_result {A} (r : result A) : run A :=
  match r with
  | Ok a => Done a
  | Raise e => Failed (Uncaught e)
  end.

(** Computations of [main] on raw entries: events, and a value or what was
    raised. *)
Definition R (A : Type) : Type := (list event * run A)%type.

Definition rret {A} (a : A) : R A := ([], Done a).

Definition rlift {A} (r : run A) : R A := ([], r).

Definition rbind {A B} (m : R A) (k : A -> R B) : R B :=
  match m with
  | (tr, Done a) => let (tr', r) := k a in (tr ++ tr', r)
  | (tr, Failed e) => (tr, Failed e)
  end.

Definition of_M {A} (m : M A) : R A := (fst m, of_result (snd m)).

(** Lines 121-158 on a raw entry, in the order the keys are read: the
    quantity and the cost price at lines 124-125, the division at line 130,
    the stop-loss threshold at line 140. *)
Definition raw_accumulate (st : LoopState) (stock : RawHolding)
  (code name : string) (data : QuoteData) : run LoopState :=
  match getitem "quantity" (raw_quantity stock) with
  | Failed e => Failed e
  | Done qty =>
    match getitem "cost_price" (raw_cost_price stock) with
    | Failed e => Failed e
    | Done cost =>
      match py_truediv (current_price data - cost) cost with
      | Raise e => Failed (Uncaught e)
      | Ok _ =>
        match getitem "stop_loss_pct" (raw_stop_loss_pct stock) with
        | Failed e => Failed e
        | Done stop_loss =>
          of_result
            (accumulate st
               {| code := code; name := name; quantity := qty;
                  cost_price := cost; stop_loss_pct := stop_loss |}
               data)
        end
      end
    end
  end.

(** One iteration, lines 109-161, on a raw entry. *)
Definition raw_loop_body (st : LoopState)
  (input : RawHolding * provider_reply) : R LoopState :=
  let (stock, reply) := input in
  rbind (rlift (getitem "code" (raw_code stock))) (fun code =>
  rbind (rlift (getitem "name" (raw_name stock))) (fun name =>
  rbind (let (data, printed) := get_stock_data_individual code name reply in
         (EvFetch code :: map EvPrint printed, Done data)) (fun data =>
  rbind (match data with
         | Some d => rlift (raw_accumulate st stock code name d)
         | None => rret st
         end) (fun st' =>
  rbind ([EvSleep 0.2], Done tt) (fun _ =>
  rret st'))))).

Fixpoint raw_loop (st : LoopState)
  (inputs : list (RawHolding * provider_reply)) : R LoopState :=
  match inputs with
  | [] => rret st
  | input :: rest => rbind (raw_loop_body st input) (fun st' => raw_loop st' rest)
  end.

Definition raw_cycle (inputs : list (RawHolding * provider_reply)) : R page :=
  rbind (raw_loop initial_state inputs) (fun st =>
  match portfolio_data st with
  | [] => rret (NoData no_data_message)
  | _ :: _ => rret (Dashboard st)
  end).

(** What [open] and [json.load] do at lines 27-28: one of them raises, or
    the list of entries is returned. *)
Inductive file_read : Type :=
| ReadRaised
| ReadList (entries : list RawHolding).

Definition load_error_message : string :=
  "❌ 找不到 holdings.json，请先创建。".

(** [load_holdings], lines 24-31: the holdings, and what [st.error] shows. *)
Definition load_holdings (file : file_read) : list RawHolding * list string :=
  match file with
  | ReadRaised => ([], [load_error_message])
  | ReadList entries => (entries, [])
  end.

(** Each holding with the provider's reply to its call; [replies i] is the
    reply to the call number [i] of the run, counted from 0. *)
Definition with_replies {A} (replies : nat -> provider_reply) (l : list A)
  : list (A * provider_reply) :=
  combine l (map replies (seq 0 (List.length l))).

(** [main] from the file: the messages of [st.error] at line 30, then the
    run. *)
Definition raw_main (file : file_read) (replies : nat -> provider_reply)
  : list string * R page :=
  let (holdings, errors) := load_holdings file in
  (errors,
   match holdings with
   | [] => rret Stopped
   | _ :: _ => raw_cycle (with_replies replies holdings)
   end).

(** A typed holding as a raw entry with all its keys. *)
Definition raw_of (h : Holding) : RawHolding :=
  {| raw_code := Some (code h); raw_name := Some (name h);
     raw_quantity := Some (quantity h);
     raw_cost_price := Some (cost_price h);
     raw_stop_loss_pct := Some (stop_loss_pct h) |}.

Definition raw_input (input : Holding * provider_reply)
  : RawHolding * provider_reply :=
  (raw_of (fst input), snd input).

(** ** Signs of binary64 numbers *)

(** A number that is not NaN and has sign bit [s]: a zero, a finite number
    or an infinity of that sign. *)
Definition signed (s : bool) (x : spec_float) : Prop :=
  x = S754_zero s \/ (exists m e, x = S754_finite s m e) \/
  x = S754_infinity s.

(** * Facts about binary64 *)

(** ** Rounding never turns a non-zero difference into zero

    The lemmas below follow the specification of the primitive operations
    ([SpecFloat]) far enough to show that [a - b] is negative whenever
    [a < b]: the exact difference is a negative multiple of [2 ^ emin], and
    rounding it keeps a positive mantissa. *)
Module F64.

#[local] Open Scope Z_scope.

(** A mantissa of [d] binary digits lies in [[2^(d-1), 2^d)]. *)
Lemma digits2_pos_bounds (p : positive) :
  2 ^ (Zpos (digits2_pos p) - 1) <= Zpos p < 2 ^ Zpos (digits2_pos p).
Proof.
  induction p as [p IH|p IH|]; simpl digits2_pos.
  - rewrite Pos2Z.inj_succ.
    replace (Z.succ (Zpos (digits2_pos p)) - 1)
      with (Z.succ (Zpos (digits2_pos p) - 1)) by lia.
    rewrite !Z.pow_succ_r by lia. lia.
  - rewrite Pos2Z.inj_succ.
    replace (Z.succ (Zpos (digits2_pos p)) - 1)
      with (Z.succ (Zpos (digits2_pos p) - 1)) by lia.
    rewrite !Z.pow_succ_r by lia. lia.
  - simpl. lia.
Qed.

(** One step of the right shift halves the mantissa. *)
Lemma shr_1_m (r : shr_record) :
  0 <= shr_m r -> shr_m (shr_1 r) = Z.div2 (shr_m r).
Proof.
  destruct r as [m r s]; simpl.
  destruct m as [|[p|p|]|p]; simpl; intros; try reflexivity; lia.
Qed.

Lemma iter_shr_1_m (n : positive) :
  forall r,
    0 <= shr_m r ->
    shr_m (SpecFloat.iter_pos shr_1 n r) = shr_m r / 2 ^ Zpos n.
Proof.
  induction n as [n IH|n IH|]; intros r Hr; simpl SpecFloat.iter_pos.
  - assert (H1 : 0 <= shr_m (shr_1 r)).
    { rewrite shr_1_m by assumption. rewrite Z.div2_div.
      apply Z.div_pos; lia. }
    assert (H2 : 0 <= shr_m (SpecFloat.iter_pos shr_1 n (shr_1 r))).
    { rewrite IH by assumption. apply Z.div_pos; lia. }
    rewrite IH, IH, shr_1_m by assumption. rewrite Z.div2_div.
    rewrite !Z.div_div by lia. f_equal.
    rewrite <- !Z.pow_add_r by lia. change 2 with (2 ^ 1) at 1.
    rewrite <- Z.pow_add_r by lia. f_equal. lia.
  - assert (H2 : 0 <= shr_m (SpecFloat.iter_pos shr_1 n r)).
    { rewrite IH by assumption. apply Z.div_pos; lia. }
    rewrite IH, IH by assumption. rewrite !Z.div_div by lia. f_equal.
    rewrite <- Z.pow_add_r by lia. f_equal. lia.
  - rewrite shr_1_m by assumption. rewrite Z.div2_div. reflexivity.
Qed.

(** Shifting a positive mantissa to its canonical exponent keeps it
    positive, as long as the exponent is not below [emin]. *)
Lemma shr_fexp_pos (p : positive) (e : Z) (l : location) :
  emin <= e ->
  0 < shr_m (fst (shr_fexp prec emax (Zpos p) e l)) /\
  emin <= snd (shr_fexp prec emax (Zpos p) e l).
Proof.
  intro He. unfold shr_fexp, shr. simpl Zdigits2.
  set (d := Zpos (digits2_pos p)).
  destruct (fexp prec emax (d + e) - e) as [|n|n] eqn:En; simpl.
  - split; [destruct l as [|[]]; simpl; lia | exact He].
  - split; [|lia].
    rewrite iter_shr_1_m by (destruct l as [|[]]; simpl; lia).
    replace (shr_m (shr_record_of_loc (Zpos p) l)) with (Zpos p)
      by (destruct l as [|[]]; reflexivity).
    apply Z.div_str_pos. split; [lia|].
    pose proof (digits2_pos_bounds p) as [Hlo _]. fold d in Hlo.
    apply Z.le_trans with (2 ^ (d - 1)); [|exact Hlo].
    apply Z.pow_le_mono_r; [lia|].
    unfold fexp, SpecFloat.emin, prec, emax in *. lia.
  - split; [destruct l as [|[]]; simpl; lia | exact He].
Qed.

Lemma round_nearest_even_pos m l : 0 < m -> 0 < round_nearest_even m l.
Proof.
  intro Hm. destruct l as [|[]]; simpl; try lia. destruct (Z.even m); lia.
Qed.

(** Rounding a non-zero mantissa gives a non-zero number of the same
    sign, or the infinity of that sign. *)
Lemma binary_round_aux_sign (s : bool) (p : positive) (e : Z)
  (l : location) :
  emin <= e ->
  (exists m' e',
      binary_round_aux prec emax s (Zpos p) e l = S754_finite s m' e') \/
  binary_round_aux prec emax s (Zpos p) e l = S754_infinity s.
Proof.
  intro He. unfold binary_round_aux.
  pose proof (shr_fexp_pos p e l He) as [H1 H2].
  destruct (shr_fexp prec emax (Zpos p) e l) as [mrs' e']. simpl in H1, H2.
  pose proof (round_nearest_even_pos (shr_m mrs') (loc_of_shr_record mrs') H1)
    as H3.
  destruct (round_nearest_even (shr_m mrs') (loc_of_shr_record mrs'))
    as [|q|q]; try lia.
  pose proof (shr_fexp_pos q e' loc_Exact H2) as [H4 _].
  destruct (shr_fexp prec emax (Zpos q) e' loc_Exact) as [mrs'' e''].
  simpl in H4.
  destruct (shr_m mrs'') as [|m|m]; try lia.
  destruct (e'' <=? emax - prec); eauto.
Qed.

Lemma shl_align_exp (m : positive) (e e' : Z) :
  Z.min e e' <= snd (shl_align m e e').
Proof.
  unfold shl_align. destruct (e' - e) eqn:E; simpl; lia.
Qed.

Lemma binary_round_sign (s : bool) (p : positive) (e : Z) :
  emin <= e ->
  (exists m' e', binary_round prec emax s p e = S754_finite s m' e') \/
  binary_round prec emax s p e = S754_infinity s.
Proof.
  intro He. unfold binary_round.
  pose proof (shl_align_exp p e (fexp prec emax (Zpos (digits2_pos p) + e)))
    as H.
  destruct (shl_align p e _) as [mz ez]. simpl in H.
  apply binary_round_aux_sign. unfold fexp, SpecFloat.emin, prec, emax in *. lia.
Qed.

Lemma iter_xO_val (m d : positive) :
  Zpos (Pos.iter xO m d) = Zpos m * 2 ^ Zpos d.
Proof.
  rewrite (Pos.iter_swap_gen _ _ Zpos xO (Z.mul 2)) by reflexivity.
  change (Pos.iter (Z.mul 2) (Zpos m) d) with (Z.shiftl (Zpos m) (Zpos d)).
  apply Z.shiftl_mul_pow2. lia.
Qed.

Lemma shl_align_val (m : positive) (e e' : Z) :
  e' <= e -> Zpos (fst (shl_align m e e')) = Zpos m * 2 ^ (e - e').
Proof.
  intro H. unfold shl_align.
  destruct (e' - e) as [|d|d] eqn:E; cbn [fst]; try lia.
  - replace (e - e') with 0 by lia. rewrite Z.pow_0_r. lia.
  - rewrite iter_xO_val. f_equal. f_equal. lia.
Qed.

(** What a valid finite number says of its mantissa and exponent. *)
Lemma bounded_canonical m e :
  bounded prec emax m e = true ->
  emin <= e /\ Zpos (digits2_pos m) <= prec /\
  (emin < e -> Zpos (digits2_pos m) = prec).
Proof.
  unfold bounded, canonical_mantissa. intro H. apply andb_prop in H as [H _].
  apply Z.eqb_eq in H. unfold fexp, SpecFloat.emin, prec, emax in *. lia.
Qed.

(** Magnitudes of two canonical mantissas compare as the floats do. *)
Lemma finite_lt_exp m1 e1 m2 e2 :
  bounded prec emax m1 e1 = true -> bounded prec emax m2 e2 = true ->
  e1 < e2 -> Zpos m1 < Zpos m2 * 2 ^ (e2 - e1).
Proof.
  intros B1 B2 He.
  apply bounded_canonical in B1 as (L1 & D1 & _).
  apply bounded_canonical in B2 as (L2 & _ & D2).
  specialize (D2 ltac:(lia)).
  pose proof (digits2_pos_bounds m1) as [_ U1].
  pose proof (digits2_pos_bounds m2) as [Lo2 _].
  rewrite D2 in Lo2.
  assert (H1 : 2 ^ Zpos (digits2_pos m1) <= 2 ^ prec)
    by (apply Z.pow_le_mono_r; lia).
  assert (H2 : 2 ^ 1 <= 2 ^ (e2 - e1)) by (apply Z.pow_le_mono_r; lia).
  assert (H3 : 2 ^ prec = 2 * 2 ^ (prec - 1)).
  { replace prec with (Z.succ (prec - 1)) at 1 by lia.
    apply Z.pow_succ_r. unfold prec; lia. }
  change (2 ^ 1) with 2 in H2. nia.
Qed.

Lemma binary_normalize_neg (D e : Z) :
  D < 0 -> emin <= e ->
  SFltb (binary_normalize prec emax D e false) (S754_zero false) = true.
Proof.
  intros HD He. destruct D as [|p|p]; try lia. cbn [binary_normalize].
  destruct (binary_round_sign true p e He) as [(m' & e' & ->)| ->]; reflexivity.
Qed.

(** The difference of two valid numbers [x < y] is negative. *)
Lemma SFsub_lt_neg (x y : spec_float) :
  valid_binary x = true -> valid_binary y = true ->
  SFltb x y = true ->
  SFltb (SF64sub x y) (S754_zero false) = true.
Proof.
  destruct x as [sx|sx| |sx mx ex], y as [sy|sy| |sy my ey];
    try (intros _ _; try destruct sx; try destruct sy; cbn; congruence).
  cbn [valid_binary]. intros Bx By Hlt.
  pose proof (bounded_canonical _ _ Bx) as (Lx & _).
  pose proof (bounded_canonical _ _ By) as (Ly & _).
  unfold SF64sub, SFsub. cbv zeta.
  apply binary_normalize_neg; [|lia].
  rewrite !shl_align_val by lia.
  unfold SFltb, SFcompare in Hlt.
  assert (Px : 0 < Zpos mx * 2 ^ (ex - Z.min ex ey))
    by (apply Z.mul_pos_pos; [lia | apply Z.pow_pos_nonneg; lia]).
  assert (Py : 0 < Zpos my * 2 ^ (ey - Z.min ex ey))
    by (apply Z.mul_pos_pos; [lia | apply Z.pow_pos_nonneg; lia]).
  destruct sx, sy; cbn [cond_Zopp]; try discriminate; try lia.
  - destruct (Z.compare_spec ex ey) as [E|E|E]; try discriminate.
    + subst ey. rewrite Z.min_id, Z.sub_diag, Z.pow_0_r, !Z.mul_1_r.
      rewrite Pos.compare_cont_spec in Hlt. cbn in Hlt.
      destruct (Pos.compare_spec mx my); try discriminate. lia.
    + pose proof (finite_lt_exp _ _ _ _ By Bx E) as F.
      rewrite Z.min_r by lia. rewrite Z.sub_diag, Z.pow_0_r, Z.mul_1_r. lia.
  - destruct (Z.compare_spec ex ey) as [E|E|E]; try discriminate.
    + subst ey. rewrite Z.min_id, Z.sub_diag, Z.pow_0_r, !Z.mul_1_r.
      rewrite Pos.compare_cont_spec in Hlt. cbn in Hlt.
      destruct (Pos.compare_spec mx my); try discriminate. lia.
    + pose proof (finite_lt_exp _ _ _ _ Bx By E) as F.
      rewrite Z.min_l by lia. rewrite Z.sub_diag, Z.pow_0_r, Z.mul_1_r. lia.
Qed.

#[local] Close Scope Z_scope.
#[local] Open Scope float_scope.

(** ** Comparisons *)
Lemma is_nan_spec (x : float) : is_nan x = true <-> Prim2SF x = S754_nan.
Proof.
  unfold Prim2SF.
  destruct (is_nan x); split; intro H; try reflexivity; try discriminate.
  exfalso. destruct (is_zero x); [discriminate|].
  destruct (is_infinity x); [discriminate|].
  destruct (Z.frexp x) as [r ex]. destruct (shr_fexp _ _ _ _ _) as [sh e'].
  destruct (shr_m sh); discriminate.
Qed.

Lemma SFcompare_antisym x y c :
  SFcompare x y = Some c -> SFcompare y x = Some (CompOpp c).
Proof.
  destruct x as [sx|sx| |sx mx ex], y as [sy|sy| |sy my ey]; simpl;
    try discriminate;
    try (intros [= <-]; try destruct sx; try destruct sy; reflexivity).
  destruct sx, sy; intros [= <-]; try reflexivity.
  - rewrite (Z.compare_antisym ex ey). destruct (ex ?= ey)%Z; simpl; try reflexivity.
    rewrite !Pos.compare_cont_spec; simpl. rewrite (Pos.compare_antisym mx my).
    destruct (mx ?= my)%positive; reflexivity.
  - rewrite (Z.compare_antisym ex ey). destruct (ex ?= ey)%Z; simpl; try reflexivity.
    rewrite !Pos.compare_cont_spec; simpl. rewrite (Pos.compare_antisym mx my).
    destruct (mx ?= my)%positive; reflexivity.
Qed.

Lemma SFcompare_none x y :
  SFcompare x y = None -> x = S754_nan \/ y = S754_nan.
Proof.
  destruct x as [sx|sx| |sx mx ex], y as [sy|sy| |sy my ey]; simpl;
    try discriminate; auto.
Qed.

Lemma is_nan_false (x : float) : is_nan x = false <-> Prim2SF x <> S754_nan.
Proof.
  rewrite <- is_nan_spec. destruct (is_nan x); split; congruence.
Qed.

(** ** The comparisons the program makes *)

Lemma sub_lt_neg (a b : float) : (a <? b) = true -> (a - b <? 0) = true.
Proof.
  rewrite !ltb_spec, sub_spec. intro H.
  change (Prim2SF 0) with (S754_zero false).
  apply SFsub_lt_neg; auto using Prim2SF_valid.
Qed.

Lemma leb_ltb_false (a b : float) : (a <=? b) = true -> (b <? a) = false.
Proof.
  rewrite leb_spec, ltb_spec. unfold SFleb, SFltb.
  destruct (SFcompare (Prim2SF a) (Prim2SF b)) as [c|] eqn:E; [|discriminate].
  rewrite (SFcompare_antisym _ _ _ E). destruct c; simpl; congruence.
Qed.

Lemma ltb_false_leb (a b : float) :
  is_nan a = false -> is_nan b = false ->
  (a <? b) = false -> (b <=? a) = true.
Proof.
  rewrite !is_nan_false, leb_spec, ltb_spec. unfold SFleb, SFltb.
  intros Ha Hb.
  destruct (SFcompare (Prim2SF a) (Prim2SF b)) as [c|] eqn:E.
  - rewrite (SFcompare_antisym _ _ _ E). destruct c; simpl; congruence.
  - apply SFcompare_none in E. tauto.
Qed.

Lemma ltb_not_nan (a b : float) :
  (a <? b) = true -> is_nan a = false /\ is_nan b = false.
Proof.
  rewrite !is_nan_false, ltb_spec. unfold SFltb. intro H.
  split; intro N; rewrite N in H; simpl in H;
    try discriminate; destruct (Prim2SF a); discriminate.
Qed.

Lemma nan_ltb (a b : float) : is_nan a = true -> (a <? b) = false.
Proof.
  rewrite is_nan_spec, ltb_spec. intros ->. reflexivity.
Qed.

Lemma nan_leb_r (a b : float) : is_nan b = true -> (a <=? b) = false.
Proof.
  rewrite is_nan_spec, leb_spec. intros ->. destruct (Prim2SF a); reflexivity.
Qed.

Lemma pos_nonzero (c : float) : (0 <? c) = true -> (c =? 0) = false.
Proof.
  rewrite ltb_spec, FloatAxioms.eqb_spec. change (Prim2SF 0) with (S754_zero false).
  unfold SFltb, SFeqb.
  destruct (Prim2SF c) as [s|s| |s m e]; simpl; try destruct s; congruence.
Qed.

Lemma SF_eqb_zero (x : spec_float) (m : positive) (e : Z) :
  SFeqb x (S754_zero false) = true ->
  SFltb x (S754_zero false) = false /\
  SFltb x (S754_finite false m e) = true.
Proof.
  unfold SFltb, SFeqb.
  destruct x as [s|s| |s mx ex]; cbn [SFcompare]; try destruct s;
    try discriminate; auto.
Qed.

Lemma SF_leb_pos_nonneg (x : spec_float) (m : positive) (e : Z) :
  SFleb (S754_finite false m e) x = true ->
  SFltb x (S754_zero false) = false.
Proof.
  unfold SFltb, SFleb.
  destruct x as [s|s| |s mx ex]; cbn [SFcompare]; try destruct s;
    try discriminate; auto.
Qed.

Lemma margin_repr : Prim2SF 0.03 = S754_finite false 8646911284551352 (-58).
Proof. reflexivity. Qed.

Lemma eqb_zero (d : float) :
  (d =? 0) = true -> (d <? 0) = false /\ (d <? 0.03) = true.
Proof.
  rewrite FloatAxioms.eqb_spec, !ltb_spec, margin_repr.
  change (Prim2SF 0) with (S754_zero false). apply SF_eqb_zero.
Qed.

Lemma margin_leb_nonneg (d : float) :
  (0.03 <=? d) = true -> (d <? 0) = false.
Proof.
  rewrite leb_spec, ltb_spec, margin_repr.
  change (Prim2SF 0) with (S754_zero false). apply SF_leb_pos_nonneg.
Qed.

Lemma eqb_leb (a b : float) : (a =? b) = true -> (b <=? a) = true.
Proof.
  rewrite FloatAxioms.eqb_spec, leb_spec. unfold SFeqb, SFleb.
  destruct (SFcompare (Prim2SF a) (Prim2SF b)) as [c|] eqn:E; [|discriminate].
  rewrite (SFcompare_antisym _ _ _ E). destruct c; simpl; congruence.
Qed.

(** ** Division by zero on [float64] scalars *)

Lemma of_spec (x : float) (v : spec_float) : Prim2SF x = v -> x = SF2Prim v.
Proof. intros <-. symmetry. apply SF2Prim_Prim2SF. Qed.

Lemma SF_eqb_zero_inv (x : spec_float) :
  SFeqb x (S754_zero false) = true -> exists s, x = S754_zero s.
Proof.
  unfold SFeqb.
  destruct x as [s|s| |s m e]; cbn [SFcompare]; try destruct s;
    try discriminate; eauto.
Qed.

Lemma SF_div_zero_scaled (x : spec_float) (s : bool) (m : positive) (e : Z) :
  let q := SF64mul (SF64div x (S754_zero s)) (S754_finite false m e) in
  q = S754_nan \/ q = S754_infinity false \/ q = S754_infinity true.
Proof.
  destruct x as [sx|sx| |sx mx ex]; destruct s; try destruct sx; cbn; auto.
Qed.

Lemma hundred_repr : Prim2SF 100 = S754_finite false 7036874417766400 (-46).
Proof. reflexivity. Qed.

(** [a / z * 100] with [z] a zero is never a finite number. *)
Lemma div_zero_percent (a z : float) :
  (z =? 0) = true ->
  a / z * 100 = nan \/ a / z * 100 = infinity \/ a / z * 100 = neg_infinity.
Proof.
  rewrite FloatAxioms.eqb_spec. change (Prim2SF 0) with (S754_zero false).
  intro H. destruct (SF_eqb_zero_inv _ H) as [s Hz].
  assert (E : Prim2SF (a / z * 100) =
              SF64mul (SF64div (Prim2SF a) (S754_zero s))
                (S754_finite false 7036874417766400 (-46))).
  { rewrite mul_spec, div_spec, Hz, hundred_repr. reflexivity. }
  destruct (SF_div_zero_scaled (Prim2SF a) s 7036874417766400 (-46))
    as [Q|[Q|Q]]; cbv zeta in Q; rewrite Q in E; apply of_spec in E; auto.
Qed.

End F64.

(** * The stop-loss classification (lines 139-144) *)

Example risk_scenario_a : risk_status (-5) 0.08 = Breach.
Proof. reflexivity. Qed.

Example risk_scenario_b : risk_status 2 0.08 = Breach.
Proof. reflexivity. Qed.

Example risk_scenario_c : risk_status 0 0 = Warning.
Proof. reflexivity. Qed.

Example risk_far_from_stop : risk_status 20 0.08 = Safe.
Proof. reflexivity. Qed.

Lemma risk_status_unfold (x s : float) :
  risk_status x s =
  if distance x s <? 0 then Breach
  else if distance x s <? 0.03 then Warning else Safe.
Proof. reflexivity. Qed.

(** C1, counterexample.  A distance that is not a number compares false with
    everything, so both tests fail and the status stays at its initial value
    "安全": the position is classified SAFE although its distance is not at
    least 0.03.  This is what the table shows for a holding whose latest
    close is NaN. *)
Lemma risk_status_nan_is_safe :
  risk_status nan 0.08 = Safe /\
  (0.03 <=? distance nan 0.08) = false /\
  ~ (forall x s : float,
       risk_status x s = Safe <-> (0.03 <=? distance x s) = true) /\
  exists st,
    outcome (cycle [(alpha, ProviderFrame [flat_row "2024-01-02" 9.00;
                                           flat_row "2024-01-03" nan])])
    = Ok (Dashboard st) /\
    map r_risk (portfolio_data st) = [Safe].
Proof.
  split; [reflexivity|]. split; [reflexivity|]. split.
  - intro H. destruct (H nan 0.08) as [H1 _].
    specialize (H1 eq_refl). vm_compute in H1. discriminate H1.
  - eexists. split; reflexivity.
Qed.

(** C1, as amended.  With [d = x/100 - s] computed as the program does:
    the status is BREACH exactly when [d < 0], WARNING exactly when
    [0 <= d < 0.03], and SAFE exactly when [d >= 0.03] or [d] is not a
    number.  [d = 0] gives WARNING, [d = 0.03] gives SAFE, and a position in
    profit ([x > 0]) is BREACH whenever [x/100 < s]. *)
Theorem risk_status_classes (x s : float) :
  (risk_status x s = Breach <-> (distance x s <? 0) = true) /\
  (risk_status x s = Warning <->
     (0 <=? distance x s) = true /\ (distance x s <? 0.03) = true) /\
  (risk_status x s = Safe <->
     (0.03 <=? distance x s) = true \/ is_nan (distance x s) = true) /\
  ((distance x s =? 0) = true -> risk_status x s = Warning) /\
  ((distance x s =? 0.03) = true -> risk_status x s = Safe) /\
  ((0 <? x) = true -> (x / 100 <? s) = true -> risk_status x s = Breach).
Proof.
  rewrite risk_status_unfold.
  pose proof (F64.sub_lt_neg (x / 100) s) as Hsub.
  fold (distance x s) in Hsub.
  generalize dependent (distance x s). intros d Hsub.
  pose proof (F64.leb_ltb_false 0 d) as L0.
  pose proof (F64.leb_ltb_false 0.03 d) as L3.
  pose proof (F64.margin_leb_nonneg d) as M.
  pose proof (F64.eqb_zero d) as Z0.
  pose proof (F64.eqb_leb d 0.03) as Q3.
  pose proof (F64.nan_ltb d 0) as N0.
  pose proof (F64.nan_ltb d 0.03) as N3.
  pose proof (F64.ltb_not_nan d 0.03) as NN.
  pose proof (F64.ltb_false_leb d 0) as G0.
  pose proof (F64.ltb_false_leb d 0.03) as G3.
  assert (K0 : is_nan 0 = false) by reflexivity.
  assert (K3 : is_nan 0.03 = false) by reflexivity.
  destruct (d <? 0) eqn:E0; [|destruct (d <? 0.03) eqn:E3];
    destruct (is_nan d) eqn:En;
    repeat split; intros;
    try discriminate; try reflexivity; try tauto;
    try (exfalso; intuition congruence);
    try solve [intuition congruence].
Qed.

(** Scenario B of the specification as an instance: a gain of 2 percent with
    a threshold of 0.08 is a breach. *)
Lemma risk_status_classes_witness :
  (0 <? 2) = true /\ (2 / 100 <? 0.08) = true /\ risk_status 2 0.08 = Breach.
Proof.
  split; [reflexivity|]. split; [reflexivity|].
  apply (proj2 (proj2 (proj2 (proj2 (proj2 (risk_status_classes 2 0.08))))));
    reflexivity.
Defined.

(** * The fetcher, [get_stock_data_individual] *)

Lemma iloc_from_end (df : DataFrame) (k : nat) (r : HistoryRow) :
  (1 <= k <= List.length df)%nat ->
  nth_error df (List.length df - k) = Some r ->
  iloc df (- Z.of_nat k) = Ok r.
Proof.
  intros Hk Hr. unfold iloc.
  assert (E1 : (- Z.of_nat k <? 0)%Z = true) by (apply Z.ltb_lt; lia).
  rewrite E1.
  assert (E2 : ((0 <=? - Z.of_nat k + Z.of_nat (List.length df))
                && (- Z.of_nat k + Z.of_nat (List.length df)
                    <? Z.of_nat (List.length df)))%Z = true).
  { apply andb_true_intro. split; [apply Z.leb_le | apply Z.ltb_lt]; lia. }
  rewrite E2.
  replace (Z.to_nat (- Z.of_nat k + Z.of_nat (List.length df)))
    with (List.length df - k)%nat by lia.
  rewrite Hr. reflexivity.
Qed.

Lemma iloc_last (front : DataFrame) (latest : HistoryRow) :
  iloc (front ++ [latest]) (-1) = Ok latest.
Proof.
  apply (iloc_from_end _ 1); rewrite length_app; simpl; [lia|].
  rewrite nth_error_app2 by lia.
  replace (List.length front + 1 - 1 - List.length front)%nat with 0%nat
    by lia.
  reflexivity.
Qed.

Lemma iloc_second_last (front : DataFrame) (prev latest : HistoryRow) :
  iloc (front ++ [prev; latest]) (-2) = Ok prev.
Proof.
  apply (iloc_from_end _ 2); rewrite length_app; simpl; [lia|].
  rewrite nth_error_app2 by lia.
  replace (List.length front + 2 - 2 - List.length front)%nat with 0%nat
    by lia.
  reflexivity.
Qed.

(** A frame of two rows or more: the quote comes from its last two rows. *)
Lemma fetch_two_rows (code name : string) (front : DataFrame)
  (prev latest : HistoryRow) :
  get_stock_data_individual code name
    (ProviderFrame (front ++ [prev; latest])) =
  (Some {| q_code := code; q_name := name;
           current_price := close latest;
           pct_change :=
             (close latest - close prev) / close prev * 100;
           day_profit_per_share := close latest - close prev;
           history_df := front ++ [prev; latest] |}, []).
Proof.
  unfold get_stock_data_individual, quote_of_frame.
  rewrite iloc_second_last.
  change (front ++ [prev; latest]) with (front ++ [prev] ++ [latest]).
  rewrite app_assoc, iloc_last.
  assert (E : (2 <=? List.length ((front ++ [prev]) ++ [latest]))%nat = true).
  { apply Nat.leb_le. rewrite !length_app. simpl. lia. }
  rewrite E.
  destruct ((front ++ [prev]) ++ [latest]) eqn:D; [|reflexivity].
  apply (f_equal (@List.length _)) in D. rewrite !length_app in D.
  simpl in D. lia.
Qed.

(** A frame of one row: the change and the day profit are 0. *)
Lemma fetch_one_row (code name : string) (only : HistoryRow) :
  get_stock_data_individual code name (ProviderFrame [only]) =
  (Some {| q_code := code; q_name := name;
           current_price := close only;
           pct_change := 0;
           day_profit_per_share := 0;
           history_df := [only] |}, []).
Proof. reflexivity. Qed.

Lemma frame_shape (df : DataFrame) :
  df <> [] ->
  (exists only, df = [only]) \/
  (exists front prev latest, df = front ++ [prev; latest]).
Proof.
  intro Hne. destruct (exists_last Hne) as (body & latest & ->).
  destruct body as [|r body'].
  - left. exists latest. reflexivity.
  - right. assert (Hb : r :: body' <> []) by discriminate.
    destruct (exists_last Hb) as (front & prev & ->).
    exists front, prev, latest. rewrite <- app_assoc. reflexivity.
Qed.

Lemma two_rows_inj (f1 f2 : DataFrame) (p1 l1 p2 l2 : HistoryRow) :
  f1 ++ [p1; l1] = f2 ++ [p2; l2] -> f1 = f2 /\ p1 = p2 /\ l1 = l2.
Proof.
  change (f1 ++ [p1; l1]) with (f1 ++ [p1] ++ [l1]).
  change (f2 ++ [p2; l2]) with (f2 ++ [p2] ++ [l2]).
  rewrite !app_assoc. intro H.
  apply app_inj_tail in H as [H ->]. apply app_inj_tail in H as [-> ->].
  auto.
Qed.

(** A non-empty frame always gives a quote, and nothing is printed. *)
Lemma fetch_frame_some (code name : string) (df : DataFrame) :
  df <> [] ->
  exists data,
    get_stock_data_individual code name (ProviderFrame df) = (Some data, []).
Proof.
  intro Hne.
  destruct (frame_shape df Hne) as [(only & ->)|(front & prev & latest & ->)];
    eexists; [apply fetch_one_row | apply fetch_two_rows].
Qed.

Example fetch_scenario_a :
  let row c := {| row_date := "2024-01-02"; row_open := c; row_high := c;
                  row_low := c; close := c |} in
  fst (get_stock_data_individual "X" "Alpha"
         (ProviderFrame [row 9.00; row 9.50])) =
  Some {| q_code := "X"; q_name := "Alpha"; current_price := 9.50;
          pct_change := 5.5555555555555554;
          day_profit_per_share := 0.5;
          history_df := [row 9.00; row 9.50] |}.
Proof. reflexivity. Qed.

(** C4.  A non-empty frame always gives a quote.  Its current price is the
    close of the last row; with two rows or more the percentage change is
    [(last - prev) / prev * 100] and the day profit per share is
    [last - prev], on the closes of the last two rows; with exactly one row
    both are 0, whatever the price. *)
Theorem quote_of_history (code name : string) (df : DataFrame) :
  df <> [] ->
  exists data,
    get_stock_data_individual code name (ProviderFrame df) = (Some data, []) /\
    history_df data = df /\
    (forall front latest,
        df = front ++ [latest] -> current_price data = close latest) /\
    (forall front prev latest,
        df = front ++ [prev; latest] ->
        pct_change data = (close latest - close prev) / close prev * 100 /\
        day_profit_per_share data = close latest - close prev) /\
    (forall only,
        df = [only] -> pct_change data = 0 /\ day_profit_per_share data = 0).
Proof.
  intro Hne.
  destruct (frame_shape df Hne) as [(only & ->)|(front & prev & latest & ->)].
  - eexists. split; [apply fetch_one_row|]. cbn.
    split; [reflexivity|]. split; [|split].
    + intros f l H. change [only] with ([] ++ [only]) in H.
      apply app_inj_tail in H as [_ ->]. reflexivity.
    + intros f p l H. apply (f_equal (@List.length _)) in H.
      rewrite length_app in H. simpl in H. lia.
    + intros o _. split; reflexivity.
  - eexists. split; [apply fetch_two_rows|]. cbn.
    split; [reflexivity|]. split; [|split].
    + intros f l H. change (front ++ [prev; latest])
        with (front ++ [prev] ++ [latest]) in H.
      rewrite app_assoc in H. apply app_inj_tail in H as [_ ->]. reflexivity.
    + intros f p l H. apply two_rows_inj in H as (_ & -> & ->).
      split; reflexivity.
    + intros o H. apply (f_equal (@List.length _)) in H.
      rewrite length_app in H. simpl in H. lia.
Qed.

Lemma quote_of_history_witness :
  falling <> [] /\
  exists data,
    fst (get_stock_data_individual "X" "Alpha" (ProviderFrame falling))
    = Some data /\
    current_price data = 9.50 /\ day_profit_per_share data = 0.5.
Proof.
  split; [discriminate|].
  destruct (quote_of_history "X" "Alpha" falling)
    as (data & E & _ & C & P & _); [discriminate|].
  exists data. rewrite E. split; [reflexivity|]. split.
  - apply (C [flat_row "2024-01-02" 9.00] (flat_row "2024-01-03" 9.50)).
    reflexivity.
  - apply (P [] (flat_row "2024-01-02" 9.00) (flat_row "2024-01-03" 9.50)).
    reflexivity.
Defined.

(** C6, counterexample.  An empty frame and a provider error give the same
    returned value, [None]: the caller cannot tell the two reasons apart. *)
Lemma fetch_failures_not_distinct :
  fst (get_stock_data_individual "X" "Alpha" (ProviderFrame [])) =
  fst (get_stock_data_individual "X" "Alpha"
         (ProviderRaised "Connection aborted.")).
Proof. reflexivity. Qed.

(** C6, as amended.  On zero rows the fetcher returns [None] and prints
    nothing; on a provider error it returns the same [None] after printing
    one line with the code and the error.  In both cases the caller gets
    this value and no exception: the two reasons give the same result. *)
Theorem fetch_failure_value (code name e : string) :
  get_stock_data_individual code name (ProviderFrame []) = (None, []) /\
  get_stock_data_individual code name (ProviderRaised e)
  = (None, [failure_line code e]) /\
  fst (get_stock_data_individual code name (ProviderFrame [])) =
  fst (get_stock_data_individual code name (ProviderRaised e)).
Proof.
  split; [reflexivity|]. split; reflexivity.
Qed.

(** C10, counterexample.  The second-to-last close is 0 and the fetcher
    still returns a quote: the division is numpy's, which gives an infinity
    where Python's own would raise.  The holding is not skipped: the cycle
    shows its row. *)
Lemma zero_prev_close_is_quoted :
  fst (get_stock_data_individual "X" "Alpha" (ProviderFrame from_zero)) =
  Some {| q_code := "X"; q_name := "Alpha"; current_price := 5;
          pct_change := infinity; day_profit_per_share := 5;
          history_df := from_zero |} /\
  exists st,
    outcome (cycle [(alpha, ProviderFrame from_zero)]) = Ok (Dashboard st) /\
    map r_code (portfolio_data st) = ["X"%string].
Proof.
  split; [reflexivity|]. eexists. split; reflexivity.
Qed.

(** C10, as amended.  When the frame has two rows or more and the
    second-to-last close is zero, the fetcher returns a quote all the same:
    its current price is the last close, its day profit per share is
    [last - prev], and its percentage change, [(last - prev) / prev * 100],
    is an infinity or NaN.  Every non-empty frame gives a quote, with no
    condition on its closes. *)
Theorem zero_prev_close_quote (code name : string) (front : DataFrame)
  (prev latest : HistoryRow) :
  (close prev =? 0) = true ->
  (exists data,
      get_stock_data_individual code name
        (ProviderFrame (front ++ [prev; latest])) = (Some data, []) /\
      current_price data = close latest /\
      day_profit_per_share data = close latest - close prev /\
      pct_change data = (close latest - close prev) / close prev * 100 /\
      (pct_change data = nan \/ pct_change data = infinity \/
       pct_change data = neg_infinity)) /\
  (forall df : DataFrame,
      df <> [] ->
      exists data,
        get_stock_data_individual code name (ProviderFrame df)
        = (Some data, [])).
Proof.
  intro Hz. split; [|apply fetch_frame_some].
  eexists. split; [apply fetch_two_rows|]. cbn.
  repeat split. apply F64.div_zero_percent. exact Hz.
Qed.

Lemma zero_prev_close_quote_witness :
  (close (flat_row "2024-01-02" 0) =? 0) = true /\
  exists data,
    get_stock_data_individual "X" "Alpha" (ProviderFrame from_zero)
    = (Some data, []) /\
    current_price data = 5.
Proof.
  split; [reflexivity|].
  destruct (zero_prev_close_quote "X" "Alpha" []
              (flat_row "2024-01-02" 0) (flat_row "2024-01-03" 5) eq_refl)
    as [(data & E & C & _) _].
  exists data. split; [exact E | exact C].
Defined.

(** * The loop of [main] *)

(** ** One iteration *)

Lemma position_metrics_ok (stock : Holding) (data : QuoteData) :
  (cost_price stock =? 0) = false ->
  position_metrics stock data = Ok (metrics (stock, data)).
Proof.
  intro H. unfold position_metrics, py_truediv. rewrite H. reflexivity.
Qed.

Lemma position_metrics_zero_cost (stock : Holding) (data : QuoteData) :
  (cost_price stock =? 0) = true ->
  position_metrics stock data = Raise ZeroDivisionError.
Proof.
  intro H. unfold position_metrics, py_truediv. rewrite H. reflexivity.
Qed.

Lemma accumulate_ok (st : LoopState) (stock : Holding) (data : QuoteData) :
  (cost_price stock =? 0) = false ->
  accumulate st stock data = Ok (absorb st (stock, data)).
Proof.
  intro H. unfold accumulate. rewrite (position_metrics_ok _ _ H).
  reflexivity.
Qed.

Lemma loop_body_failed (st : LoopState) (input : Holding * provider_reply) :
  fetched input = None ->
  loop_body st input = (iteration_events input, Ok st).
Proof.
  destruct input as [stock reply].
  unfold fetched, loop_body, call_fetch, iteration_events, fetch_events.
  cbn [fst snd].
  destruct (get_stock_data_individual (code stock) (name stock) reply)
    as [data printed].
  cbn [fst snd]. intros ->. cbn. rewrite ?app_nil_r. reflexivity.
Qed.

Lemma loop_body_fetched (st : LoopState) (input : Holding * provider_reply)
  (data : QuoteData) :
  fetched input = Some data ->
  (cost_price (fst input) =? 0) = false ->
  loop_body st input =
  (iteration_events input, Ok (absorb st (fst input, data))).
Proof.
  destruct input as [stock reply].
  unfold fetched, loop_body, call_fetch, iteration_events, fetch_events.
  cbn [fst snd].
  destruct (get_stock_data_individual (code stock) (name stock) reply)
    as [d printed].
  cbn [fst snd]. intros -> Hc. cbn [bind].
  unfold lift. rewrite (accumulate_ok _ _ _ Hc). cbn.
  rewrite ?app_nil_r. reflexivity.
Qed.

(** An iteration whose holding has a zero cost price and a quote stops at
    line 130, after the fetch and before the sleep. *)
Lemma loop_body_zero_cost (st : LoopState) (input : Holding * provider_reply)
  (data : QuoteData) :
  fetched input = Some data ->
  (cost_price (fst input) =? 0) = true ->
  loop_body st input = (fetch_events input, Raise ZeroDivisionError).
Proof.
  destruct input as [stock reply].
  unfold fetched, loop_body, call_fetch, fetch_events. cbn [fst snd].
  destruct (get_stock_data_individual (code stock) (name stock) reply)
    as [d printed].
  cbn [fst snd]. intros -> Hc. cbn [bind].
  unfold lift, accumulate. rewrite (position_metrics_zero_cost _ _ Hc). cbn.
  rewrite ?app_nil_r. reflexivity.
Qed.

Lemma loop_cons (st : LoopState) (input : Holding * provider_reply)
  (rest : list (Holding * provider_reply)) :
  loop st (input :: rest) = bind (loop_body st input) (fun st' => loop st' rest).
Proof. reflexivity. Qed.

(** ** The whole loop *)

Lemma in_successes (inputs : list (Holding * provider_reply))
  (p : Holding * QuoteData) :
  In p (successes inputs) ->
  exists input, In input inputs /\ fst input = fst p /\
                fetched input = Some (snd p).
Proof.
  induction inputs as [|input rest IH]; simpl; [tauto|].
  destruct (fetched input) as [data|] eqn:E.
  - intros [<-|H].
    + exists input. auto.
    + destruct (IH H) as (i & Hi & R). exists i. auto.
  - intro H. destruct (IH H) as (i & Hi & R). exists i. auto.
Qed.

Lemma successes_none (inputs : list (Holding * provider_reply)) :
  (forall input, In input inputs -> fetched input = None) ->
  successes inputs = [].
Proof.
  induction inputs as [|input rest IH]; simpl; intro H; [reflexivity|].
  rewrite (H input) by auto. apply IH. auto.
Qed.

Lemma successes_some (inputs : list (Holding * provider_reply))
  (input : Holding * provider_reply) :
  In input inputs -> fetched input <> None -> successes inputs <> [].
Proof.
  induction inputs as [|i rest IH]; simpl; [tauto|].
  intros [->|H] Hf.
  - destruct (fetched input); [discriminate|congruence].
  - destruct (fetched i); [discriminate|auto].
Qed.

Lemma positive_costs_nonzero (inputs : list (Holding * provider_reply)) :
  positive_costs inputs ->
  forall p, In p (successes inputs) -> (cost_price (fst p) =? 0) = false.
Proof.
  intros Hpos p Hp.
  destruct (in_successes _ _ Hp) as (input & Hin & <- & _).
  apply F64.pos_nonzero.
  unfold positive_costs in Hpos. rewrite Forall_forall in Hpos. auto.
Qed.

(** When no fetched holding has a zero cost price the loop runs to its end:
    every iteration reaches its sleep, and the state has taken the fetched
    holdings in, in order. *)
Lemma loop_completes (inputs : list (Holding * provider_reply)) :
  forall st,
    (forall p, In p (successes inputs) -> (cost_price (fst p) =? 0) = false) ->
    loop st inputs =
    (flat_map iteration_events inputs,
     Ok (fold_left absorb (successes inputs) st)).
Proof.
  induction inputs as [|input rest IH]; intros st Hc; [reflexivity|].
  rewrite loop_cons. cbn [successes flat_map] in *.
  destruct (fetched input) as [data|] eqn:E.
  - rewrite (loop_body_fetched st input data E)
      by (apply (Hc (fst input, data)); left; reflexivity).
    cbn [bind fold_left]. rewrite IH by (intros p Hp; apply Hc; right; exact Hp).
    reflexivity.
  - rewrite (loop_body_failed st input E). cbn [bind].
    rewrite IH by exact Hc. reflexivity.
Qed.

(** The first fetched holding with a zero cost price ends the run: line 130
    raises, after that holding's fetch and before its sleep, and nothing
    catches the exception. *)
Lemma zero_cost_stops_loop (front rest : list (Holding * provider_reply))
  (input : Holding * provider_reply) (data : QuoteData) :
  forall st,
    (forall p, In p (successes front) -> (cost_price (fst p) =? 0) = false) ->
    fetched input = Some data ->
    (cost_price (fst input) =? 0) = true ->
    loop st (front ++ input :: rest) =
    (flat_map iteration_events front ++ fetch_events input,
     Raise ZeroDivisionError).
Proof.
  induction front as [|i front IH]; intros st Hc Hf Hz.
  - cbn [app flat_map]. rewrite loop_cons.
    rewrite (loop_body_zero_cost st input data Hf Hz). reflexivity.
  - cbn [app flat_map successes] in *. rewrite loop_cons.
    destruct (fetched i) as [d|] eqn:E.
    + rewrite (loop_body_fetched st i d E)
        by (apply (Hc (fst i, d)); left; reflexivity).
      cbn [bind].
      rewrite IH by (try (intros p Hp; apply Hc; right); assumption).
      rewrite app_assoc. reflexivity.
    + rewrite (loop_body_failed st i E). cbn [bind].
      rewrite IH by assumption. rewrite app_assoc. reflexivity.
Qed.

(** A loop that ends normally met no fetched holding with a zero cost
    price. *)
Lemma loop_ok_nonzero (inputs : list (Holding * provider_reply)) :
  forall st st',
    outcome (loop st inputs) = Ok st' ->
    forall p, In p (successes inputs) -> (cost_price (fst p) =? 0) = false.
Proof.
  induction inputs as [|input rest IH]; intros st st' H p Hp; [destruct Hp|].
  rewrite loop_cons in H. cbn [successes] in Hp.
  destruct (fetched input) as [data|] eqn:Ef.
  - destruct (cost_price (fst input) =? 0) eqn:Ec.
    + rewrite (loop_body_zero_cost st input data Ef Ec) in H. discriminate H.
    + rewrite (loop_body_fetched st input data Ef Ec) in H. cbn [bind] in H.
      destruct (loop (absorb st (fst input, data)) rest) as [tr r] eqn:EL.
      destruct Hp as [<-|Hp]; [exact Ec|].
      apply (IH (absorb st (fst input, data)) st'); [|exact Hp].
      rewrite EL. exact H.
  - rewrite (loop_body_failed st input Ef) in H. cbn [bind] in H.
    destruct (loop st rest) as [tr r] eqn:EL.
    apply (IH st st'); [|exact Hp]. rewrite EL. exact H.
Qed.

(** The state a loop ends on, whenever it ends normally. *)
Lemma loop_ok_state (inputs : list (Holding * provider_reply))
  (st st' : LoopState) :
  outcome (loop st inputs) = Ok st' ->
  st' = fold_left absorb (successes inputs) st.
Proof.
  intro H. pose proof (loop_ok_nonzero inputs st st' H) as Hc.
  rewrite (loop_completes inputs st Hc) in H. injection H as <-. reflexivity.
Qed.

Lemma absorbed_rows (ps : list (Holding * QuoteData)) :
  forall st,
    portfolio_data (fold_left absorb ps st)
    = portfolio_data st ++ map row_of ps.
Proof.
  induction ps as [|p ps IH]; intro st; cbn [fold_left map].
  - rewrite app_nil_r. reflexivity.
  - rewrite IH. cbn [absorb portfolio_data]. rewrite <- app_assoc.
    reflexivity.
Qed.

Lemma absorbed_totals (ps : list (Holding * QuoteData)) :
  forall st,
    total_asset (fold_left absorb ps st)
    = fold_left PrimFloat.add (map market_value ps) (total_asset st) /\
    total_profit (fold_left absorb ps st)
    = fold_left PrimFloat.add (map unrealized_profit ps) (total_profit st) /\
    total_day_profit (fold_left absorb ps st)
    = fold_left PrimFloat.add (map day_profit_of ps) (total_day_profit st).
Proof.
  induction ps as [|p ps IH]; intro st; cbn [fold_left map].
  - repeat split.
  - destruct (IH (absorb st p)) as (A & B & C). rewrite A, B, C.
    repeat split.
Qed.

Lemma successes_filter (inputs : list (Holding * provider_reply)) :
  map fst (successes inputs) = map fst (filter succeeded inputs).
Proof.
  induction inputs as [|input rest IH]; [reflexivity|].
  cbn [successes filter]. unfold succeeded at 1.
  destruct (fetched input); cbn [map]; rewrite IH; reflexivity.
Qed.

Lemma successes_of_filter (inputs : list (Holding * provider_reply)) :
  successes (filter succeeded inputs) = successes inputs.
Proof.
  induction inputs as [|input rest IH]; [reflexivity|].
  cbn [successes filter]. unfold succeeded at 1.
  destruct (fetched input) eqn:E; cbn [successes]; rewrite ?E, IH;
    reflexivity.
Qed.

(** * Position figures and portfolio totals *)

Example scenario_a_figures :
  position_metrics alpha
    {| q_code := "X"; q_name := "Alpha"; current_price := 9.50;
       pct_change := 5.5555555555555554; day_profit_per_share := 0.5;
       history_df := falling |} =
  Ok {| market_val := 950; profit := -50; profit_pct := -5;
        day_profit := 50 |}.
Proof. reflexivity. Qed.

(** C2.  For a holding whose fetch returned a quote, with current price [c],
    quantity [q], cost price [p > 0] and day profit per share [d], the
    iteration computes the market value [c * q], the unrealized profit
    [(c - p) * q], its percentage [(c - p) / p * 100] and the day profit
    [d * q], raises nothing, and appends the row made of them. *)
Theorem position_figures (st : LoopState) (stock : Holding)
  (reply : provider_reply) (data : QuoteData) :
  fetched (stock, reply) = Some data ->
  (0 <? cost_price stock) = true ->
  let c := current_price data in
  let q := quantity stock in
  let p := cost_price stock in
  let d := day_profit_per_share data in
  let pm := {| market_val := c * q;
               profit := (c - p) * q;
               profit_pct := (c - p) / p * 100;
               day_profit := d * q |} in
  position_metrics stock data = Ok pm /\
  exists st',
    outcome (loop_body st (stock, reply)) = Ok st' /\
    portfolio_data st' = portfolio_data st ++ [portfolio_row stock data pm] /\
    total_asset st' = total_asset st + c * q /\
    total_profit st' = total_profit st + (c - p) * q /\
    total_day_profit st' = total_day_profit st + d * q.
Proof.
  intros Hf Hp. cbv zeta. apply F64.pos_nonzero in Hp.
  split; [apply (position_metrics_ok stock data Hp)|].
  exists (absorb st (stock, data)).
  rewrite (loop_body_fetched st (stock, reply) data Hf Hp).
  repeat split.
Qed.

Lemma position_figures_witness :
  let data := {| q_code := "X"; q_name := "Alpha"; current_price := 9.50;
                 pct_change := 5.5555555555555554;
                 day_profit_per_share := 0.5; history_df := falling |} in
  fetched (alpha, ProviderFrame falling) = Some data /\
  (0 <? cost_price alpha) = true /\
  position_metrics alpha data =
  Ok {| market_val := 9.50 * 100; profit := (9.50 - 10.00) * 100;
        profit_pct := (9.50 - 10.00) / 10.00 * 100;
        day_profit := 0.5 * 100 |}.
Proof.
  cbv zeta. split; [reflexivity|]. split; [reflexivity|].
  exact (proj1 (position_figures initial_state alpha (ProviderFrame falling)
                  _ eq_refl eq_refl)).
Defined.

(** C3.  The accumulator starts at zero.  Whenever the loop ends normally,
    each of its three totals is the sum, started at zero and taken in list
    order, of the matching figure over the holdings whose fetch returned a
    quote; a holding whose fetch failed is left out, not counted as zero:
    the cycle run on the fetched holdings alone ends on the same totals.
    The loop does end normally when cost prices are positive, as the
    specification assumes. *)
Theorem totals_are_sums (inputs : list (Holding * provider_reply)) :
  (total_asset initial_state = 0 /\
   total_profit initial_state = 0 /\
   total_day_profit initial_state = 0) /\
  (forall st,
      outcome (loop initial_state inputs) = Ok st ->
      total_asset st = fsum (map market_value (successes inputs)) /\
      total_profit st = fsum (map unrealized_profit (successes inputs)) /\
      total_day_profit st = fsum (map day_profit_of (successes inputs)) /\
      exists st',
        outcome (loop initial_state (filter succeeded inputs)) = Ok st' /\
        total_asset st' = total_asset st /\
        total_profit st' = total_profit st /\
        total_day_profit st' = total_day_profit st) /\
  (positive_costs inputs ->
   exists st, outcome (loop initial_state inputs) = Ok st).
Proof.
  split; [repeat split|]. split.
  - intros st H.
    pose proof (loop_ok_nonzero inputs _ _ H) as Hc.
    rewrite (loop_ok_state inputs _ _ H).
    destruct (absorbed_totals (successes inputs) initial_state)
      as (A & B & C).
    do 3 (split; [assumption|]).
    exists (fold_left absorb (successes inputs) initial_state).
    rewrite (loop_completes (filter succeeded inputs) initial_state)
      by (rewrite successes_of_filter; exact Hc).
    rewrite successes_of_filter. repeat split.
  - intro Hpos. eexists.
    rewrite (loop_completes inputs initial_state
               (positive_costs_nonzero inputs Hpos)).
    reflexivity.
Qed.

Lemma totals_are_sums_witness :
  let inputs := [(alpha, ProviderFrame falling);
                 (beta, ProviderFrame [])] in
  positive_costs inputs /\
  exists st,
    outcome (loop initial_state inputs) = Ok st /\
    total_asset st = fsum (map market_value (successes inputs)).
Proof.
  cbv zeta.
  assert (H : positive_costs [(alpha, ProviderFrame falling);
                              (beta, ProviderFrame [])])
    by (repeat constructor).
  split; [exact H|].
  destruct (totals_are_sums [(alpha, ProviderFrame falling);
                             (beta, ProviderFrame [])])
    as (_ & T & C).
  destruct (C H) as (st & E). exists st. split; [exact E|].
  exact (proj1 (T st E)).
Defined.

(** Scenario D of the specification: one fetched holding, one empty
    history. *)
Example scenario_d :
  exists st,
    outcome (cycle [(alpha, ProviderFrame falling); (beta, ProviderFrame [])])
    = Ok (Dashboard st) /\
    total_asset st = 950 /\ List.length (portfolio_data st) = 1%nat.
Proof. eexists. repeat split. Qed.

(** * Failed fetches, the table and the end of the cycle *)

(** C5.  When the fetch of a holding returns [None], its iteration changes
    nothing in the loop state (no row, the three totals as they were),
    reaches its sleep, and the loop goes on with the remaining holdings from
    that same state. *)
Theorem failed_fetch_is_skipped (st : LoopState)
  (input : Holding * provider_reply)
  (rest : list (Holding * provider_reply)) :
  fetched input = None ->
  loop_body st input = (iteration_events input, Ok st) /\
  loop st (input :: rest) =
  (iteration_events input ++ events (loop st rest), outcome (loop st rest)).
Proof.
  intro Hf. split; [apply (loop_body_failed st input Hf)|].
  rewrite loop_cons, (loop_body_failed st input Hf). cbn [bind].
  destruct (loop st rest) as [tr r]. reflexivity.
Qed.

Lemma failed_fetch_is_skipped_witness :
  fetched (beta, ProviderRaised "Connection aborted.") = None /\
  outcome (loop initial_state
             [(beta, ProviderRaised "Connection aborted.");
              (alpha, ProviderFrame falling)]) =
  outcome (loop initial_state [(alpha, ProviderFrame falling)]).
Proof.
  split; [reflexivity|].
  exact (f_equal snd
           (proj2 (failed_fetch_is_skipped initial_state
                     (beta, ProviderRaised "Connection aborted.")
                     [(alpha, ProviderFrame falling)] eq_refl))).
Defined.

Lemma cycle_of_loop (inputs : list (Holding * provider_reply))
  (tr : list event) (st : LoopState) :
  loop initial_state inputs = (tr, Ok st) ->
  cycle inputs =
  (tr, Ok match portfolio_data st with
          | [] => NoData no_data_message
          | _ :: _ => Dashboard st
          end).
Proof.
  intro E. unfold cycle. rewrite E. cbn [bind].
  destruct (portfolio_data st); cbn; rewrite app_nil_r; reflexivity.
Qed.

(** C7.  When every fetch of the cycle fails, the loop leaves its state
    empty and the cycle ends on the error message, with no row.  When at
    least one fetch returns a quote, the cycle never ends on that message,
    and with positive cost prices, as the specification assumes, it ends
    normally on the dashboard, whose rows are those of the fetched holdings.
    [main] runs the cycle whenever there are holdings. *)
Theorem cycle_failure_report (inputs : list (Holding * provider_reply)) :
  ((forall input, In input inputs -> fetched input = None) ->
   outcome (cycle inputs) = Ok (NoData no_data_message) /\
   outcome (loop initial_state inputs) = Ok initial_state) /\
  ((exists input, In input inputs /\ fetched input <> None) ->
   (forall message, outcome (cycle inputs) <> Ok (NoData message)) /\
   (positive_costs inputs ->
    exists st,
      outcome (cycle inputs) = Ok (Dashboard st) /\
      portfolio_data st = map row_of (successes inputs) /\
      portfolio_data st <> [])) /\
  (inputs <> [] -> main inputs = cycle inputs).
Proof.
  split; [|split].
  - intro Hall.
    assert (E : loop initial_state inputs =
                (flat_map iteration_events inputs, Ok initial_state)).
    { rewrite loop_completes; rewrite (successes_none inputs Hall);
        [reflexivity | intros p []]. }
    rewrite (cycle_of_loop _ _ _ E), E. split; reflexivity.
  - intros (input & Hin & Hf).
    pose proof (successes_some inputs input Hin Hf) as Hne.
    pose proof (absorbed_rows (successes inputs) initial_state) as R.
    cbn [initial_state portfolio_data app] in R.
    split.
    + intros message H.
      destruct (loop initial_state inputs) as [tr [st|e]] eqn:E.
      * pose proof (loop_ok_state inputs initial_state st) as S.
        rewrite E in S. specialize (S eq_refl).
        rewrite (cycle_of_loop _ _ _ E) in H. cbn [outcome snd] in H.
        rewrite S, R in H.
        destruct (successes inputs); [congruence | discriminate H].
      * unfold cycle in H. rewrite E in H. discriminate H.
    + intro Hpos.
      pose proof (loop_completes inputs initial_state
                    (positive_costs_nonzero inputs Hpos)) as E.
      exists (fold_left absorb (successes inputs) initial_state).
      rewrite (cycle_of_loop _ _ _ E).
      rewrite R. destruct (successes inputs) as [|p ps]; [congruence|].
      cbn [map outcome snd]. repeat split. discriminate.
  - destruct inputs; [congruence | reflexivity].
Qed.

Lemma cycle_failure_report_witness :
  (forall input,
      In input [(alpha, ProviderFrame []);
                (beta, ProviderRaised "Connection aborted.")] ->
      fetched input = None) /\
  outcome (cycle [(alpha, ProviderFrame []);
                  (beta, ProviderRaised "Connection aborted.")])
  = Ok (NoData no_data_message).
Proof.
  assert (H : forall input,
             In input [(alpha, ProviderFrame []);
                       (beta, ProviderRaised "Connection aborted.")] ->
             fetched input = None).
  { intros input [<-|[<-|[]]]; reflexivity. }
  split; [exact H|].
  exact (proj1 (proj1 (cycle_failure_report _) H)).
Defined.

Lemma row_holding (p : Holding * QuoteData) :
  (r_code (row_of p), r_name (row_of p), r_quantity (row_of p),
   r_cost (row_of p)) =
  (code (fst p), name (fst p), quantity (fst p), cost_price (fst p)).
Proof. reflexivity. Qed.

(** C8.  Whenever the loop ends normally, its table has one row per holding
    whose fetch returned a quote, and the rows come in the order of the
    holdings list: read back as (code, name, quantity, cost), they are the
    fetched holdings, filtered from the list in place.  The loop does end
    normally when cost prices are positive, as the specification assumes. *)
Theorem rows_follow_holdings (inputs : list (Holding * provider_reply)) :
  (forall st,
      outcome (loop initial_state inputs) = Ok st ->
      portfolio_data st = map row_of (successes inputs) /\
      map (fun r => (r_code r, r_name r, r_quantity r, r_cost r))
          (portfolio_data st) =
      map (fun h => (code h, name h, quantity h, cost_price h))
          (map fst (filter succeeded inputs))) /\
  (positive_costs inputs ->
   exists st, outcome (loop initial_state inputs) = Ok st).
Proof.
  split.
  - intros st H. rewrite (loop_ok_state inputs _ _ H).
    rewrite (absorbed_rows (successes inputs) initial_state).
    cbn [initial_state portfolio_data app].
    split; [reflexivity|].
    rewrite <- successes_filter, !map_map. apply map_ext. intro p.
    apply row_holding.
  - intro Hpos. eexists.
    rewrite (loop_completes inputs initial_state
               (positive_costs_nonzero inputs Hpos)).
    reflexivity.
Qed.

Lemma rows_follow_holdings_witness :
  let inputs := [(alpha, ProviderFrame falling);
                 (beta, ProviderRaised "Connection aborted.");
                 (alpha, ProviderFrame rising)] in
  positive_costs inputs /\
  exists st,
    outcome (loop initial_state inputs) = Ok st /\
    map r_code (portfolio_data st) = ["X"%string; "X"%string] /\
    map r_current (portfolio_data st) = [9.50; 10.20].
Proof.
  cbv zeta.
  assert (H : positive_costs [(alpha, ProviderFrame falling);
                              (beta, ProviderRaised "Connection aborted.");
                              (alpha, ProviderFrame rising)])
    by (repeat constructor).
  split; [exact H|].
  destruct (rows_follow_holdings
              [(alpha, ProviderFrame falling);
               (beta, ProviderRaised "Connection aborted.");
               (alpha, ProviderFrame rising)]) as (R & C).
  destruct (C H) as (st & E). exists st. split; [exact E|].
  rewrite (proj1 (R st E)). split; reflexivity.
Defined.

(** * Pacing of the provider calls *)

Lemma spaced_prints (pending : bool) (lines : list string)
  (tr : list event) :
  spaced pending (map EvPrint lines ++ tr) = spaced pending tr.
Proof.
  induction lines as [|l lines IH]; [reflexivity | exact IH].
Qed.

Lemma spaced_fetch_events (pending : bool)
  (input : Holding * provider_reply) (tr : list event) :
  spaced pending (fetch_events input ++ tr) = negb pending && spaced true tr.
Proof.
  unfold fetch_events. cbn [app spaced]. rewrite spaced_prints. reflexivity.
Qed.

Lemma spaced_iteration (input : Holding * provider_reply)
  (tr : list event) :
  spaced false (iteration_events input ++ tr) = spaced false tr.
Proof.
  unfold iteration_events. rewrite <- app_assoc, spaced_fetch_events.
  reflexivity.
Qed.

(** Whatever the replies, and also when the loop is cut short by an
    exception, its trace is spaced. *)
Lemma loop_spaced (inputs : list (Holding * provider_reply)) :
  forall st, spaced false (events (loop st inputs)) = true.
Proof.
  induction inputs as [|input rest IH]; intro st; [reflexivity|].
  rewrite loop_cons.
  destruct (fetched input) as [data|] eqn:Ef.
  - destruct (cost_price (fst input) =? 0) eqn:Ec.
    + rewrite (loop_body_zero_cost st input data Ef Ec). cbn [bind events fst].
      rewrite <- (app_nil_r (fetch_events input)), spaced_fetch_events.
      reflexivity.
    + rewrite (loop_body_fetched st input data Ef Ec). cbn [bind].
      specialize (IH (absorb st (fst input, data))).
      destruct (loop (absorb st (fst input, data)) rest) as [tr r].
      cbn [events fst] in *. rewrite spaced_iteration. exact IH.
  - rewrite (loop_body_failed st input Ef). cbn [bind].
    specialize (IH st). destruct (loop st rest) as [tr r].
    cbn [events fst] in *. rewrite spaced_iteration. exact IH.
Qed.

Lemma cycle_events (inputs : list (Holding * provider_reply)) :
  events (cycle inputs) = events (loop initial_state inputs).
Proof.
  unfold cycle. destruct (loop initial_state inputs) as [tr [st|e]];
    cbn [bind events fst]; [|reflexivity].
  destruct (portfolio_data st); cbn; apply app_nil_r.
Qed.

Lemma spaced_suffix (a tr : list event) :
  forall pending,
    spaced pending (a ++ tr) = true ->
    exists pending', spaced pending' tr = true.
Proof.
  induction a as [|ev a IH]; intros pending H; [eauto|].
  cbn [app spaced] in H. destruct ev as [c|l|s].
  - apply andb_prop in H as [_ H]. eauto.
  - eauto.
  - destruct (PrimFloat.Leibniz.eqb s 0.2); eauto.
Qed.

Lemma spaced_pending (mid b : list event) (c : string) :
  spaced true (mid ++ EvFetch c :: b) = true -> In (EvSleep 0.2) mid.
Proof.
  induction mid as [|ev mid IH]; cbn [app spaced]; [discriminate|].
  destruct ev as [c'|l|s].
  - discriminate.
  - intro H. right. auto.
  - destruct (PrimFloat.Leibniz.eqb s 0.2) eqn:E.
    + intros _. left. apply FloatAxioms.Leibniz.eqb_spec in E. rewrite E.
      reflexivity.
    + intro H. right. auto.
Qed.

Lemma spaced_between (tr a mid b : list event) (c1 c2 : string) :
  spaced false tr = true ->
  tr = a ++ EvFetch c1 :: mid ++ EvFetch c2 :: b ->
  In (EvSleep 0.2) mid.
Proof.
  intros H ->. apply spaced_suffix in H as [pending H].
  cbn [spaced] in H. apply andb_prop in H as [_ H].
  exact (spaced_pending mid b c2 H).
Qed.

(** C9.  In the trace of a cycle, whatever the holdings and the provider's
    replies, between any two calls to the provider there is a [sleep] of
    0.2 seconds: the loop sleeps at the end of every iteration it
    completes, and an iteration cut short by an exception is the last. *)
Theorem fetches_are_spaced (inputs : list (Holding * provider_reply))
  (a mid b : list event) (c1 c2 : string) :
  events (cycle inputs) = a ++ EvFetch c1 :: mid ++ EvFetch c2 :: b ->
  In (EvSleep 0.2) mid.
Proof.
  rewrite cycle_events. apply spaced_between. apply loop_spaced.
Qed.

Example two_holdings_trace :
  events (cycle [(alpha, ProviderFrame falling);
                 (beta, ProviderRaised "Connection aborted.")]) =
  [EvFetch "X"; EvSleep 0.2;
   EvFetch "Y"; EvPrint (failure_line "Y" "Connection aborted.");
   EvSleep 0.2].
Proof. reflexivity. Qed.

Lemma fetches_are_spaced_witness :
  events (cycle [(alpha, ProviderFrame falling);
                 (beta, ProviderRaised "Connection aborted.")]) =
  [] ++ EvFetch "X" :: [EvSleep 0.2]
     ++ EvFetch "Y" :: [EvPrint (failure_line "Y" "Connection aborted.");
                        EvSleep 0.2] /\
  In (EvSleep 0.2) [EvSleep 0.2].
Proof.
  split; [reflexivity|].
  exact (fetches_are_spaced
           [(alpha, ProviderFrame falling);
            (beta, ProviderRaised "Connection aborted.")]
           [] [EvSleep 0.2]
           [EvPrint (failure_line "Y" "Connection aborted."); EvSleep 0.2]
           "X" "Y" eq_refl).
Defined.

(** * Beyond the claims: the rest of [main] *)

(** ** The history cache *)

Lemma dict_get_set_same {V} (d : list (string * V)) (k : string) (v : V) :
  dict_get (dict_set d k v) k = Some v.
Proof.
  induction d as [|[k' v'] d IH]; cbn [dict_set dict_get].
  - rewrite String.eqb_refl. reflexivity.
  - destruct (String.eqb k' k) eqn:E; cbn [dict_get].
    + rewrite String.eqb_refl. reflexivity.
    + rewrite E. exact IH.
Qed.

Lemma dict_get_set_other {V} (d : list (string * V)) (k k' : string)
  (v : V) :
  k <> k' -> dict_get (dict_set d k v) k' = dict_get d k'.
Proof.
  intro Hne. apply String.eqb_neq in Hne.
  induction d as [|[k0 v0] d IH]; cbn [dict_set dict_get].
  - rewrite Hne. reflexivity.
  - destruct (String.eqb k0 k) eqn:E; cbn [dict_get].
    + apply String.eqb_eq in E. subst k0. rewrite Hne. reflexivity.
    + rewrite IH. reflexivity.
Qed.

Lemma find_last {A} (f : A -> bool) (l : list A) (x : A) :
  find f (l ++ [x]) =
  match find f l with
  | Some y => Some y
  | None => if f x then Some x else None
  end.
Proof.
  induction l as [|a l IH]; cbn [app find]; [reflexivity|].
  destruct (f a); [reflexivity | exact IH].
Qed.

(** The cache after fetched holdings have been taken in: under a code, the
    frame of the last of them with that code. *)
Lemma cache_after (ps : list (Holding * QuoteData)) :
  forall st c,
    dict_get (history_cache (fold_left absorb ps st)) c =
    match find (fun p => String.eqb (code (fst p)) c) (rev ps) with
    | Some p => Some (history_df (snd p))
    | None => dict_get (history_cache st) c
    end.
Proof.
  induction ps as [|p ps IH]; intros st c; [reflexivity|].
  cbn [fold_left rev]. rewrite IH, find_last.
  destruct (find _ (rev ps)); [reflexivity|].
  cbn [absorb history_cache].
  destruct (String.eqb (code (fst p)) c) eqn:E.
  - apply String.eqb_eq in E. subst c. apply dict_get_set_same.
  - apply String.eqb_neq in E. apply dict_get_set_other. exact E.
Qed.

(** A quote carries the code and the name it was asked for, and the
    provider's frame as it came, which is not empty. *)
Lemma fetched_quote (input : Holding * provider_reply) (data : QuoteData) :
  fetched input = Some data ->
  snd input = ProviderFrame (history_df data) /\
  history_df data <> [] /\
  q_code data = code (fst input) /\
  q_name data = name (fst input).
Proof.
  destruct input as [h [e|df]]; unfold fetched; cbn [fst snd];
    [discriminate|].
  destruct df as [|r df']; [discriminate|].
  destruct (frame_shape (r :: df'))
    as [(only & E)|(front & prev & latest & E)]; [discriminate| |];
    rewrite E.
  - rewrite fetch_one_row. intros [= <-]. repeat split. discriminate.
  - rewrite fetch_two_rows. intros [= <-]. repeat split.
    cbn [history_df]. destruct front; discriminate.
Qed.

Lemma cache_of_loop (inputs : list (Holding * provider_reply))
  (st : LoopState) (c : string) :
  outcome (loop initial_state inputs) = Ok st ->
  dict_get (history_cache st) c =
  option_map (fun p => history_df (snd p))
    (find (fun p => String.eqb (code (fst p)) c) (rev (successes inputs))).
Proof.
  intro H. rewrite (loop_ok_state inputs _ _ H), cache_after.
  destruct (find _ (rev (successes inputs))); reflexivity.
Qed.

Lemma rows_of_loop (inputs : list (Holding * provider_reply))
  (st : LoopState) :
  outcome (loop initial_state inputs) = Ok st ->
  portfolio_data st = map row_of (successes inputs).
Proof.
  intro H. rewrite (loop_ok_state inputs _ _ H).
  apply (absorbed_rows (successes inputs) initial_state).
Qed.

Lemma rows_are_cached (inputs : list (Holding * provider_reply))
  (st : LoopState) (row : PortfolioRow) :
  outcome (loop initial_state inputs) = Ok st ->
  In row (portfolio_data st) ->
  dict_get (history_cache st) (r_code row) <> None.
Proof.
  intros H Hrow. rewrite (cache_of_loop inputs st _ H).
  rewrite (rows_of_loop inputs st H) in Hrow.
  apply in_map_iff in Hrow as (p & <- & Hp).
  destruct (find (fun q => String.eqb (code (fst q)) (r_code (row_of p)))
                 (rev (successes inputs))) eqn:F; [discriminate|].
  apply in_rev in Hp. apply (find_none _ _ F) in Hp.
  cbn in Hp. rewrite String.eqb_refl in Hp. discriminate Hp.
Qed.

(** X1.  After a loop that ends normally, the history cache holds, under each
    code, the frame the provider returned at the last fetch of that code
    that gave a quote, and nothing under any other code; so every row of the
    table has its history in the cache. *)
Theorem cache_holds_last_fetch (inputs : list (Holding * provider_reply))
  (st : LoopState) :
  outcome (loop initial_state inputs) = Ok st ->
  (forall c,
      dict_get (history_cache st) c =
      option_map (fun p => history_df (snd p))
        (find (fun p => String.eqb (code (fst p)) c)
              (rev (successes inputs)))) /\
  (forall p,
      In p (successes inputs) ->
      In (fst p, ProviderFrame (history_df (snd p))) inputs) /\
  (forall row,
      In row (portfolio_data st) ->
      dict_get (history_cache st) (r_code row) <> None).
Proof.
  intro H. split; [|split].
  - intro c. apply (cache_of_loop inputs st c H).
  - intros p Hp. destruct (in_successes _ _ Hp) as (input & Hin & Hh & Hf).
    destruct (fetched_quote input (snd p) Hf) as (Hr & _).
    destruct input as [h reply]. cbn [fst snd] in *. subst. exact Hin.
  - intros row Hrow. apply (rows_are_cached inputs st row H Hrow).
Qed.

Lemma cache_holds_last_fetch_witness :
  let inputs := [(alpha, ProviderFrame falling);
                 (beta, ProviderRaised "Connection aborted.");
                 (alpha, ProviderFrame rising)] in
  exists st,
    outcome (loop initial_state inputs) = Ok st /\
    dict_get (history_cache st) "X" = Some rising /\
    dict_get (history_cache st) "Y" = None.
Proof.
  cbv zeta.
  set (inputs := [(alpha, ProviderFrame falling);
                  (beta, ProviderRaised "Connection aborted.");
                  (alpha, ProviderFrame rising)]).
  set (st := fold_left absorb (successes inputs) initial_state).
  assert (E : outcome (loop initial_state inputs) = Ok st) by reflexivity.
  exists st. split; [exact E|].
  rewrite !(proj1 (cache_holds_last_fetch inputs st E)). split; reflexivity.
Defined.

(** ** The cards and the table *)

(** X2.  After a loop that ends normally, the three cards are the sums, in the
    program's order and from zero, of what the table shows row by row:
    price times quantity, the profit column and the day-profit column. *)
Theorem cards_are_column_sums (inputs : list (Holding * provider_reply))
  (st : LoopState) :
  outcome (loop initial_state inputs) = Ok st ->
  total_asset st =
  fsum (map (fun r => r_current r * r_quantity r) (portfolio_data st)) /\
  total_profit st = fsum (map r_profit (portfolio_data st)) /\
  total_day_profit st = fsum (map r_day_profit (portfolio_data st)).
Proof.
  intro H. rewrite (loop_ok_state inputs _ _ H).
  rewrite (absorbed_rows (successes inputs) initial_state).
  cbn [initial_state portfolio_data app]. rewrite !map_map.
  destruct (absorbed_totals (successes inputs) initial_state) as (A & B & C).
  rewrite A, B, C. repeat split.
Qed.

Lemma cards_are_column_sums_witness :
  let inputs := [(alpha, ProviderFrame falling);
                 (beta, ProviderFrame rising)] in
  exists st,
    outcome (loop initial_state inputs) = Ok st /\
    total_profit st = fsum (map r_profit (portfolio_data st)).
Proof.
  cbv zeta.
  set (inputs := [(alpha, ProviderFrame falling);
                  (beta, ProviderFrame rising)]).
  set (st := fold_left absorb (successes inputs) initial_state).
  assert (E : outcome (loop initial_state inputs) = Ok st) by reflexivity.
  exists st. split; [exact E|].
  exact (proj1 (proj2 (cards_are_column_sums inputs st E))).
Defined.

(** ** Calls to the provider *)

Lemma fetch_calls_app (a b : list event) :
  fetch_calls (a ++ b) = fetch_calls a ++ fetch_calls b.
Proof.
  induction a as [|[c|l|s] a IH]; cbn [app fetch_calls]; rewrite ?IH;
    reflexivity.
Qed.

Lemma sleeps_app (a b : list event) : sleeps (a ++ b) = (sleeps a + sleeps b)%nat.
Proof.
  induction a as [|[c|l|s] a IH]; cbn [app sleeps]; rewrite ?IH;
    reflexivity.
Qed.

Lemma fetch_events_calls (input : Holding * provider_reply) :
  fetch_calls (fetch_events input) = [code (fst input)] /\
  sleeps (fetch_events input) = 0%nat.
Proof.
  unfold fetch_events. cbn [fetch_calls sleeps].
  induction (snd (get_stock_data_individual (code (fst input))
                    (name (fst input)) (snd input))) as [|l ls IH];
    [split; reflexivity | exact IH].
Qed.

Lemma iteration_events_calls (input : Holding * provider_reply) :
  fetch_calls (iteration_events input) = [code (fst input)] /\
  sleeps (iteration_events input) = 1%nat.
Proof.
  unfold iteration_events. rewrite fetch_calls_app, sleeps_app.
  destruct (fetch_events_calls input) as [-> ->]. split; reflexivity.
Qed.

Lemma loop_calls (inputs : list (Holding * provider_reply)) :
  forall st,
  exists k,
    (k <= List.length inputs)%nat /\
    fetch_calls (events (loop st inputs)) =
    map (fun i => code (fst i)) (firstn k inputs) /\
    match outcome (loop st inputs) with
    | Ok _ => k = List.length inputs /\ sleeps (events (loop st inputs)) = k
    | Raise _ => S (sleeps (events (loop st inputs))) = k
    end.
Proof.
  induction inputs as [|input rest IH]; intro st.
  - exists 0%nat. cbn. repeat split. lia.
  - rewrite loop_cons.
    assert (Step : forall st1,
               exists k,
                 (k <= List.length (input :: rest))%nat /\
                 fetch_calls (events (bind (iteration_events input, Ok st1)
                                        (fun st' => loop st' rest))) =
                 map (fun i => code (fst i)) (firstn k (input :: rest)) /\
                 match outcome (bind (iteration_events input, Ok st1)
                                  (fun st' => loop st' rest)) with
                 | Ok _ =>
                   k = List.length (input :: rest) /\
                   sleeps (events (bind (iteration_events input, Ok st1)
                                     (fun st' => loop st' rest))) = k
                 | Raise _ =>
                   S (sleeps (events (bind (iteration_events input, Ok st1)
                                        (fun st' => loop st' rest)))) = k
                 end).
    { intro st1. destruct (IH st1) as (k & Hk & Hc & Ho).
      exists (S k). cbn [bind]. destruct (loop st1 rest) as [tr r].
      cbn [events outcome fst snd] in *.
      rewrite fetch_calls_app, sleeps_app.
      destruct (iteration_events_calls input) as [-> ->].
      cbn [List.length firstn map app]. rewrite Hc.
      split; [lia|]. split; [reflexivity|].
      destruct r; [destruct Ho as [-> Hs]; split; [reflexivity | lia] | lia]. }
    destruct (fetched input) as [data|] eqn:Ef.
    + destruct (cost_price (fst input) =? 0) eqn:Ec.
      * rewrite (loop_body_zero_cost st input data Ef Ec).
        exists 1%nat. cbn [bind events outcome fst snd List.length firstn map].
        destruct (fetch_events_calls input) as [-> ->].
        repeat split. lia.
      * rewrite (loop_body_fetched st input data Ef Ec). apply Step.
    + rewrite (loop_body_failed st input Ef). apply Step.
Qed.

(** X3.  The provider is called once per holding, in the order of the list, as
    far as the run gets: when the loop ends normally every holding has had its
    call and there are as many sleeps as calls; when an exception ends it,
    the calls are those of a prefix of the list, and the last of them had no
    sleep after it. *)
Theorem one_call_per_holding (inputs : list (Holding * provider_reply)) :
  exists k,
    (k <= List.length inputs)%nat /\
    fetch_calls (events (cycle inputs)) =
    map (fun i => code (fst i)) (firstn k inputs) /\
    match outcome (loop initial_state inputs) with
    | Ok _ => k = List.length inputs /\ sleeps (events (cycle inputs)) = k
    | Raise _ => S (sleeps (events (cycle inputs))) = k
    end.
Proof.
  rewrite cycle_events. apply loop_calls.
Qed.

(** ** Colours of the table *)

(** X4.  A row is painted red exactly when its distance to the stop loss is
    below zero, yellow exactly when it is not and is below 0.03, and left
    plain otherwise; all its cells, one per column, get the same style.  The
    two substring tests of [highlight] tell the three labels apart. *)
Theorem highlight_by_distance (p : Holding * QuoteData) :
  highlight (row_of p) =
  repeat
    (if distance (unrealized_profit_pct p) (stop_loss_pct (fst p)) <? 0
     then "background-color: #ffcccc"%string
     else if distance (unrealized_profit_pct p) (stop_loss_pct (fst p))
             <? 0.03
          then "background-color: #fff4cc"%string
          else ""%string)
    11.
Proof.
  unfold highlight, row_of, portfolio_row. cbn [r_risk metrics profit_pct].
  rewrite risk_status_unfold.
  destruct (distance (unrealized_profit_pct p) (stop_loss_pct (fst p)) <? 0);
    [reflexivity|].
  destruct (distance (unrealized_profit_pct p) (stop_loss_pct (fst p))
            <? 0.03); reflexivity.
Qed.

(** ** The chart selection *)

Lemma find_first {A} (f : A -> bool) (l : list A) (x : A) :
  find f l = Some x ->
  exists l1 l2,
    l = l1 ++ x :: l2 /\ f x = true /\ forall y, In y l1 -> f y = false.
Proof.
  induction l as [|a l IH]; cbn [find]; [discriminate|].
  destruct (f a) eqn:E.
  - intros [= <-]. exists [], l. repeat split; [exact E | intros y []].
  - intro H. destruct (IH H) as (l1 & l2 & -> & Hx & Hl1).
    exists (a :: l1), l2. repeat split; [exact Hx|].
    intros y [<-|Hy]; [exact E | auto].
Qed.

Lemma find_exists {A} (f : A -> bool) (l : list A) (x : A) :
  In x l -> f x = true -> exists y, find f l = Some y.
Proof.
  intros Hin Hx. destruct (find f l) as [y|] eqn:E; [eauto|].
  rewrite (find_none _ _ E x Hin) in Hx. discriminate Hx.
Qed.

(** In a list without two elements of the same key, looking a key up finds
    the element that carries it. *)
Lemma find_unique {A} (key : A -> string) (l : list A) (x : A) :
  NoDup (map key l) ->
  In x l ->
  find (fun y => String.eqb (key y) (key x)) l = Some x.
Proof.
  induction l as [|a l IH]; cbn [map find]; intros Hnd Hin; [destruct Hin|].
  inversion Hnd as [|k ks Hnotin Hnd']; subst.
  destruct Hin as [->|Hin]; [rewrite String.eqb_refl; reflexivity|].
  destruct (String.eqb (key a) (key x)) eqn:E; [|auto].
  apply String.eqb_eq in E. exfalso. apply Hnotin. rewrite E.
  apply in_map. exact Hin.
Qed.

Lemma NoDup_map_filter {A} (key : A -> string) (f : A -> bool)
  (l : list A) :
  NoDup (map key l) -> NoDup (map key (filter f l)).
Proof.
  induction l as [|a l IH]; cbn [map filter]; intro Hnd; [constructor|].
  inversion Hnd as [|k ks Hnotin Hnd']; subst.
  destruct (f a); cbn [map]; [|auto].
  constructor; [|auto].
  intro Hin. apply Hnotin. apply in_map_iff in Hin as (y & Hy & Hf).
  apply filter_In in Hf as [Hf _]. rewrite <- Hy. apply in_map. exact Hf.
Qed.

(** X5.  Whatever name of the table is picked in the select box, the two
    [next(...)] of lines 209-210 find their element, and the code they
    select is in the history cache, so the chart is drawn: the selected code
    is that of the first row with the name, the cost that of the first
    holding with that code. *)
Theorem chart_selection_succeeds (inputs : list (Holding * provider_reply))
  (st : LoopState) (sel_name : string) :
  outcome (loop initial_state inputs) = Ok st ->
  In sel_name (map r_name (portfolio_data st)) ->
  exists c hist,
    chart_selection (map fst inputs) st sel_name = Some c /\
    df_hist c = Some hist /\
    (exists rows1 row rows2,
        portfolio_data st = rows1 ++ row :: rows2 /\
        r_name row = sel_name /\
        (forall r, In r rows1 -> r_name r <> sel_name) /\
        sel_code c = r_code row) /\
    (exists hs1 h hs2,
        map fst inputs = hs1 ++ h :: hs2 /\
        code h = sel_code c /\
        (forall h', In h' hs1 -> code h' <> sel_code c) /\
        sel_cost c = cost_price h).
Proof.
  intros H Hsel.
  pose proof (fun row => rows_are_cached inputs st row H) as Hcache.
  pose proof (rows_of_loop inputs st H) as Hrows.
  apply in_map_iff in Hsel as (row0 & Hname0 & Hrow0).
  destruct (find_exists (fun item => String.eqb (r_name item) sel_name)
              (portfolio_data st) row0 Hrow0) as (row & Frow);
    [apply String.eqb_eq; exact Hname0|].
  destruct (find_first _ _ _ Frow) as (rows1 & rows2 & Erows & Hrow & Hbefore).
  apply String.eqb_eq in Hrow.
  assert (Hin : In row (portfolio_data st))
    by (rewrite Erows; apply in_elt).
  assert (Hin' := Hin). rewrite Hrows in Hin'.
  apply in_map_iff in Hin' as (p & Hp & Hps).
  destruct (in_successes _ _ Hps) as (input & Hinput & Hfst & _).
  assert (Hh : In (fst p) (map fst inputs))
    by (rewrite <- Hfst; apply in_map; exact Hinput).
  destruct (find_exists (fun item => String.eqb (code item) (r_code row))
              (map fst inputs) (fst p) Hh) as (h & Fh);
    [rewrite <- Hp; apply String.eqb_refl|].
  destruct (find_first _ _ _ Fh) as (hs1 & hs2 & Ehs & Hcode & Hhs1).
  apply String.eqb_eq in Hcode.
  destruct (dict_get (history_cache st) (r_code row)) as [hist|] eqn:Ehist;
    [|exfalso; exact (Hcache row Hin Ehist)].
  exists {| sel_code := r_code row; sel_cost := cost_price h;
            df_hist := Some hist |}, hist.
  split.
  - unfold chart_selection, next_where. rewrite Frow. cbn [option_map].
    rewrite Fh. cbn [option_map]. rewrite Ehist. reflexivity.
  - cbn [df_hist sel_code sel_cost]. split; [reflexivity|]. split.
    + exists rows1, row, rows2. repeat split; try assumption.
      intros r Hr E. apply Hbefore in Hr. apply String.eqb_neq in Hr.
      exact (Hr E).
    + exists hs1, h, hs2. repeat split; try assumption.
      intros h' Hh' E. apply Hhs1 in Hh'. apply String.eqb_neq in Hh'.
      exact (Hh' E).
Qed.

Lemma chart_selection_succeeds_witness :
  let inputs := [(alpha, ProviderFrame falling);
                 (beta, ProviderFrame rising)] in
  exists st c,
    outcome (loop initial_state inputs) = Ok st /\
    In "Beta"%string (map r_name (portfolio_data st)) /\
    chart_selection (map fst inputs) st "Beta" = Some c /\
    df_hist c <> None.
Proof.
  cbv zeta.
  set (inputs := [(alpha, ProviderFrame falling);
                  (beta, ProviderFrame rising)]).
  set (st := fold_left absorb (successes inputs) initial_state).
  assert (E : outcome (loop initial_state inputs) = Ok st) by reflexivity.
  assert (N : In "Beta"%string (map r_name (portfolio_data st)))
    by (right; left; reflexivity).
  destruct (chart_selection_succeeds inputs st "Beta" E N)
    as (c & hist & S & D & _).
  exists st, c. repeat split; try assumption. rewrite D. discriminate.
Defined.

(** X6.  When no two holdings share a code, the chart is that of one fetched
    holding, the first of the table with the chosen name: the selected code,
    the cost line and the candles (the frame the provider returned for it)
    all come from that holding. *)
Theorem chart_of_unique_codes (inputs : list (Holding * provider_reply))
  (st : LoopState) (sel_name : string) :
  NoDup (map (fun i => code (fst i)) inputs) ->
  outcome (loop initial_state inputs) = Ok st ->
  In sel_name (map r_name (portfolio_data st)) ->
  exists p,
    In p (successes inputs) /\
    name (fst p) = sel_name /\
    In (fst p, ProviderFrame (history_df (snd p))) inputs /\
    chart_selection (map fst inputs) st sel_name =
    Some {| sel_code := code (fst p);
            sel_cost := cost_price (fst p);
            df_hist := Some (history_df (snd p)) |}.
Proof.
  intros Hnd H Hsel.
  pose proof (rows_of_loop inputs st H) as Hrows.
  apply in_map_iff in Hsel as (row0 & Hname0 & Hrow0).
  destruct (find_exists (fun item => String.eqb (r_name item) sel_name)
              (portfolio_data st) row0 Hrow0) as (row & Frow);
    [apply String.eqb_eq; exact Hname0|].
  destruct (find_some _ _ Frow) as (Hin & Hname).
  apply String.eqb_eq in Hname.
  rewrite Hrows in Hin. apply in_map_iff in Hin as (p & Hp & Hps).
  subst row.
  destruct (in_successes _ _ Hps) as (input & Hinput & Hfst & Hf).
  destruct (fetched_quote input (snd p) Hf) as (Hreply & _).
  assert (Hpair : In (fst p, ProviderFrame (history_df (snd p))) inputs).
  { destruct input as [h reply]. cbn [fst snd] in *. subst. exact Hinput. }
  exists p. split; [exact Hps|]. split; [exact Hname|].
  split; [exact Hpair|].
  assert (Fh : find (fun item => String.eqb (code item) (code (fst p)))
                    (map fst inputs) = Some (fst p)).
  { apply (find_unique code).
    - rewrite map_map. exact Hnd.
    - rewrite <- Hfst. apply in_map. exact Hinput. }
  assert (Fc : find (fun q => String.eqb (code (fst q)) (code (fst p)))
                    (rev (successes inputs)) = Some p).
  { apply (find_unique (fun q => code (fst q))); [|apply in_rev in Hps; exact Hps].
    rewrite map_rev. apply NoDup_rev.
    rewrite <- (map_map fst code), successes_filter, map_map.
    apply (NoDup_map_filter (fun i => code (fst i))). exact Hnd. }
  unfold chart_selection, next_where. rewrite Frow. cbn [option_map].
  change (r_code (row_of p)) with (code (fst p)).
  rewrite Fh. cbn [option_map].
  rewrite (cache_of_loop inputs st _ H), Fc. reflexivity.
Qed.

Lemma chart_of_unique_codes_witness :
  let inputs := [(alpha, ProviderFrame falling);
                 (beta, ProviderFrame rising)] in
  exists st,
    NoDup (map (fun i => code (fst i)) inputs) /\
    outcome (loop initial_state inputs) = Ok st /\
    In "Beta"%string (map r_name (portfolio_data st)) /\
    exists p,
      chart_selection (map fst inputs) st "Beta" =
      Some {| sel_code := code (fst p); sel_cost := cost_price (fst p);
              df_hist := Some (history_df (snd p)) |}.
Proof.
  cbv zeta.
  set (inputs := [(alpha, ProviderFrame falling);
                  (beta, ProviderFrame rising)]).
  set (st := fold_left absorb (successes inputs) initial_state).
  assert (D : NoDup (map (fun i => code (fst i)) inputs)).
  { repeat constructor; cbn; intuition discriminate. }
  assert (E : outcome (loop initial_state inputs) = Ok st) by reflexivity.
  assert (N : In "Beta"%string (map r_name (portfolio_data st)))
    by (right; left; reflexivity).
  destruct (chart_of_unique_codes inputs st "Beta" D E N)
    as (p & _ & _ & _ & S).
  exists st. repeat split; try assumption. exists p. exact S.
Defined.

(** With a code listed twice the cost line is the first entry's, also when
    the row on the chart comes from the second. *)
Example chart_cost_of_repeated_code :
  let again := {| code := "X"; name := "Alpha"; quantity := 10;
                  cost_price := 12.00; stop_loss_pct := 0.08 |} in
  let inputs := [(alpha, ProviderFrame []);
                 (again, ProviderFrame rising)] in
  exists st c,
    outcome (loop initial_state inputs) = Ok st /\
    map r_cost (portfolio_data st) = [12.00] /\
    chart_selection (map fst inputs) st "Alpha" = Some c /\
    sel_cost c = 10.00.
Proof.
  cbv zeta. eexists. eexists. repeat split; reflexivity.
Qed.

(** * The fetcher on binary64: signs and exact zeros *)

(** ** Division and multiplication keep the sign

    Rounding may take a quotient or a product to zero or to an infinity,
    never to the other sign and never to NaN. *)
Module Sign.

#[local] Open Scope Z_scope.

Lemma binary_normalize_pos (D e : Z) :
  0 < D -> emin <= e ->
  SFltb (S754_zero false) (binary_normalize prec emax D e false) = true.
Proof.
  intros HD He. destruct D as [|p|p]; try lia. cbn [binary_normalize].
  destruct (F64.binary_round_sign false p e He) as [(m' & e' & ->)| ->];
    reflexivity.
Qed.

Lemma SFsub_gt_pos (x y : spec_float) :
  valid_binary x = true -> valid_binary y = true ->
  SFltb x y = true ->
  SFltb (S754_zero false) (SF64sub y x) = true.
Proof.
  destruct x as [sx|sx| |sx mx ex], y as [sy|sy| |sy my ey];
    try (intros _ _; try destruct sx; try destruct sy; cbn; congruence).
  cbn [valid_binary]. intros Bx By Hlt.
  pose proof (F64.bounded_canonical _ _ Bx) as (Lx & _).
  pose proof (F64.bounded_canonical _ _ By) as (Ly & _).
  unfold SF64sub, SFsub. cbv zeta.
  apply binary_normalize_pos; [|lia].
  rewrite !F64.shl_align_val by lia.
  unfold SFltb, SFcompare in Hlt.
  assert (Px : 0 < Zpos mx * 2 ^ (ex - Z.min ey ex))
    by (apply Z.mul_pos_pos; [lia | apply Z.pow_pos_nonneg; lia]).
  assert (Py : 0 < Zpos my * 2 ^ (ey - Z.min ey ex))
    by (apply Z.mul_pos_pos; [lia | apply Z.pow_pos_nonneg; lia]).
  destruct sx, sy; cbn [cond_Zopp]; try discriminate; try lia.
  - destruct (Z.compare_spec ex ey) as [E|E|E]; try discriminate.
    + subst ey. rewrite Z.min_id, Z.sub_diag, Z.pow_0_r, !Z.mul_1_r.
      rewrite Pos.compare_cont_spec in Hlt. cbn in Hlt.
      destruct (Pos.compare_spec mx my); try discriminate. lia.
    + pose proof (F64.finite_lt_exp _ _ _ _ By Bx E) as F.
      rewrite Z.min_l by lia. rewrite Z.sub_diag, Z.pow_0_r, Z.mul_1_r. lia.
  - destruct (Z.compare_spec ex ey) as [E|E|E]; try discriminate.
    + subst ey. rewrite Z.min_id, Z.sub_diag, Z.pow_0_r, !Z.mul_1_r.
      rewrite Pos.compare_cont_spec in Hlt. cbn in Hlt.
      destruct (Pos.compare_spec mx my); try discriminate. lia.
    + pose proof (F64.finite_lt_exp _ _ _ _ Bx By E) as F.
      rewrite Z.min_r by lia. rewrite Z.sub_diag, Z.pow_0_r, Z.mul_1_r. lia.
Qed.

Lemma shr_fexp_nonneg (m e : Z) (l : location) :
  0 <= m -> 0 <= shr_m (fst (shr_fexp prec emax m e l)).
Proof.
  intro Hm. unfold shr_fexp, shr.
  assert (Hr : shr_m (shr_record_of_loc m l) = m)
    by (destruct l as [|[]]; reflexivity).
  destruct (fexp prec emax (Zdigits2 m + e) - e) as [|n|n]; cbn [fst];
    rewrite ?F64.iter_shr_1_m, Hr by (rewrite Hr; exact Hm);
    try exact Hm.
  apply Z.div_pos; [exact Hm|]. apply Z.pow_pos_nonneg; lia.
Qed.

Lemma round_nearest_even_nonneg (m : Z) (l : location) :
  0 <= m -> 0 <= round_nearest_even m l.
Proof.
  intro Hm. destruct l as [|[]]; simpl; try lia. destruct (Z.even m); lia.
Qed.

Lemma binary_round_aux_signed (s : bool) (m e : Z) (l : location) :
  0 <= m -> signed s (binary_round_aux prec emax s m e l).
Proof.
  intro Hm. unfold binary_round_aux.
  pose proof (shr_fexp_nonneg m e l Hm) as H1.
  destruct (shr_fexp prec emax m e l) as [mrs' e']. cbn [fst] in H1.
  pose proof (round_nearest_even_nonneg (shr_m mrs') (loc_of_shr_record mrs')
                H1) as H2.
  pose proof (shr_fexp_nonneg _ e' loc_Exact H2) as H3.
  destruct (shr_fexp prec emax
              (round_nearest_even (shr_m mrs') (loc_of_shr_record mrs'))
              e' loc_Exact) as [mrs'' e''].
  cbn [fst] in H3. unfold signed.
  destruct (shr_m mrs'') as [|q|q]; [auto| |lia].
  destruct (e'' <=? emax - prec); eauto.
Qed.

Lemma SFdiv_signed (s : bool) (x : spec_float) (sy : bool) (my : positive)
  (ey : Z) :
  signed s x -> signed (xorb s sy) (SF64div x (S754_finite sy my ey)).
Proof.
  intros [->|[(m & e & ->)| ->]]; unfold SF64div, SFdiv, signed; auto.
  unfold SFdiv_core_binary. cbv zeta.
  set (e' := Z.min _ _). set (m' := match _ with 0 => _ | _ => _ end).
  assert (Hm' : 0 <= m').
  { unfold m'. destruct (e - ey - e'); try lia.
    apply Z.shiftl_nonneg. lia. }
  destruct (Z.div_eucl m' (Zpos my)) as [q r] eqn:E.
  apply binary_round_aux_signed.
  assert (Hq : q = m' / Zpos my) by (unfold Z.div; rewrite E; reflexivity).
  rewrite Hq. apply Z.div_pos; lia.
Qed.

Lemma SFmul_signed (s : bool) (x : spec_float) (my : positive) (ey : Z) :
  signed s x -> signed s (SF64mul x (S754_finite false my ey)).
Proof.
  intros [->|[(m & e & ->)| ->]]; unfold SF64mul, SFmul, signed;
    rewrite ?xorb_false_r; auto.
  apply binary_round_aux_signed. lia.
Qed.

Lemma signed_nonneg (x : spec_float) :
  signed false x -> SFleb (S754_zero false) x = true.
Proof. intros [->|[(m & e & ->)| ->]]; reflexivity. Qed.

Lemma signed_nonpos (x : spec_float) :
  signed true x -> SFleb x (S754_zero false) = true.
Proof. intros [->|[(m & e & ->)| ->]]; reflexivity. Qed.

Lemma pos_signed (x : spec_float) :
  SFltb (S754_zero false) x = true -> signed false x.
Proof.
  unfold SFltb, signed.
  destruct x as [s|s| |s m e]; cbn [SFcompare]; try destruct s;
    try discriminate; eauto.
Qed.

Lemma neg_signed (x : spec_float) :
  SFltb x (S754_zero false) = true -> signed true x.
Proof.
  unfold SFltb, signed.
  destruct x as [s|s| |s m e]; cbn [SFcompare]; try destruct s;
    try discriminate; eauto.
Qed.

Lemma pos_finite_repr (x : spec_float) :
  SFltb (S754_zero false) x = true ->
  SFltb x (S754_infinity false) = true ->
  exists m e, x = S754_finite false m e.
Proof.
  unfold SFltb.
  destruct x as [s|s| |s m e]; cbn [SFcompare]; try destruct s;
    try discriminate; eauto.
Qed.

#[local] Close Scope Z_scope.
#[local] Open Scope float_scope.

Lemma sub_gt_pos (a b : float) : (a <? b) = true -> (0 <? b - a) = true.
Proof.
  rewrite !ltb_spec, sub_spec. intro H.
  change (Prim2SF 0) with (S754_zero false).
  apply SFsub_gt_pos; auto using Prim2SF_valid.
Qed.

Lemma infinity_repr : Prim2SF infinity = S754_infinity false.
Proof. reflexivity. Qed.

(** The percentage of a positive move over a positive finite price is not
    negative. *)
Lemma percent_nonneg (d p : float) :
  (0 <? d) = true -> (0 <? p) = true -> (p <? infinity) = true ->
  (0 <=? d / p * 100) = true.
Proof.
  rewrite !ltb_spec, leb_spec, mul_spec, div_spec, F64.hundred_repr,
    infinity_repr.
  change (Prim2SF 0) with (S754_zero false). intros Hd Hp Hf.
  destruct (pos_finite_repr _ Hp Hf) as (m & e & ->).
  apply signed_nonneg, SFmul_signed.
  apply (SFdiv_signed false _ false). apply pos_signed. exact Hd.
Qed.

Lemma percent_nonpos (d p : float) :
  (d <? 0) = true -> (0 <? p) = true -> (p <? infinity) = true ->
  (d / p * 100 <=? 0) = true.
Proof.
  rewrite !ltb_spec, leb_spec, mul_spec, div_spec, F64.hundred_repr,
    infinity_repr.
  change (Prim2SF 0) with (S754_zero false). intros Hd Hp Hf.
  destruct (pos_finite_repr _ Hp Hf) as (m & e & ->).
  apply signed_nonpos, SFmul_signed.
  apply (SFdiv_signed true _ false). apply neg_signed. exact Hd.
Qed.

(** ** A finite number minus itself *)

Lemma finite_repr (c : float) :
  is_finite c = true ->
  (exists s, Prim2SF c = S754_zero s) \/
  (exists s m e, Prim2SF c = S754_finite s m e).
Proof.
  unfold is_finite. rewrite negb_true_iff, orb_false_iff.
  intros [Hn Hi]. apply F64.is_nan_false in Hn.
  unfold is_infinity in Hi.
  rewrite FloatAxioms.eqb_spec, abs_spec, infinity_repr in Hi.
  destruct (Prim2SF c) as [s|s| |s m e]; eauto.
  - destruct s; discriminate Hi.
  - congruence.
Qed.

Lemma SFsub_self (x : spec_float) :
  (exists s, x = S754_zero s) \/ (exists s m e, x = S754_finite s m e) ->
  SF64sub x x = S754_zero false.
Proof.
  intros [(s & ->)|(s & m & e & ->)]; [destruct s; reflexivity|].
  unfold SF64sub, SFsub. cbv zeta. rewrite Z.sub_diag. reflexivity.
Qed.

Lemma sub_self (c : float) : is_finite c = true -> c - c = 0.
Proof.
  intro H. apply (F64.of_spec (c - c) (S754_zero false)).
  rewrite sub_spec. apply SFsub_self, finite_repr, H.
Qed.

Lemma zero_percent (c : float) :
  is_finite c = true -> (c =? 0) = false -> (0 / c * 100 =? 0) = true.
Proof.
  intros Hf Hz. rewrite FloatAxioms.eqb_spec in *.
  rewrite mul_spec, div_spec, F64.hundred_repr.
  change (Prim2SF 0) with (S754_zero false) in *.
  destruct (finite_repr c Hf) as [(s & E)|(s & m & e & E)]; rewrite E in *.
  - destruct s; discriminate Hz.
  - destruct s; reflexivity.
Qed.

Lemma nan_percent (c : float) : (c =? 0) = true -> 0 / c * 100 = nan.
Proof.
  rewrite FloatAxioms.eqb_spec. change (Prim2SF 0) with (S754_zero false).
  intro H. destruct (F64.SF_eqb_zero_inv _ H) as [s E].
  apply (F64.of_spec _ S754_nan).
  rewrite mul_spec, div_spec, E, F64.hundred_repr.
  change (Prim2SF 0) with (S754_zero false). reflexivity.
Qed.

End Sign.

(** X7.  When the last two closes are one and the same finite number, the day
    profit per share is exactly 0; the percentage change is zero when that
    close is not zero, and NaN when it is. *)
Theorem unchanged_close_quote (code name : string) (front : DataFrame)
  (prev latest : HistoryRow) :
  close latest = close prev ->
  is_finite (close prev) = true ->
  exists data,
    get_stock_data_individual code name
      (ProviderFrame (front ++ [prev; latest])) = (Some data, []) /\
    day_profit_per_share data = 0 /\
    ((close prev =? 0) = false -> (pct_change data =? 0) = true) /\
    ((close prev =? 0) = true -> pct_change data = nan).
Proof.
  intros Heq Hf. eexists. split; [apply fetch_two_rows|].
  cbn [day_profit_per_share pct_change]. rewrite Heq.
  rewrite (Sign.sub_self _ Hf). split; [reflexivity|]. split.
  - apply (Sign.zero_percent _ Hf).
  - apply Sign.nan_percent.
Qed.

Lemma unchanged_close_quote_witness :
  let day1 := flat_row "2024-01-02" 9.50 in
  let day2 := flat_row "2024-01-03" 9.50 in
  close day2 = close day1 /\
  is_finite (close day1) = true /\
  exists data,
    get_stock_data_individual "X" "Alpha" (ProviderFrame [day1; day2])
    = (Some data, []) /\
    day_profit_per_share data = 0.
Proof.
  cbv zeta. split; [reflexivity|]. split; [reflexivity|].
  destruct (unchanged_close_quote "X" "Alpha" []
              (flat_row "2024-01-02" 9.50) (flat_row "2024-01-03" 9.50)
              eq_refl eq_refl) as (data & E & D & _).
  exists data. split; [exact E | exact D].
Defined.

(** X8.  With a positive finite previous close, the quote follows the price: a
    higher last close gives a positive day profit per share and a
    percentage change that is not negative, a lower one a negative day
    profit per share and a percentage change that is not positive.
    Rounding never turns the difference of two different closes into
    zero. *)
Theorem quote_follows_price (code name : string) (front : DataFrame)
  (prev latest : HistoryRow) :
  (0 <? close prev) = true ->
  (close prev <? infinity) = true ->
  exists data,
    get_stock_data_individual code name
      (ProviderFrame (front ++ [prev; latest])) = (Some data, []) /\
    ((close prev <? close latest) = true ->
     (0 <? day_profit_per_share data) = true /\
     (0 <=? pct_change data) = true) /\
    ((close latest <? close prev) = true ->
     (day_profit_per_share data <? 0) = true /\
     (pct_change data <=? 0) = true).
Proof.
  intros Hp Hf. eexists. split; [apply fetch_two_rows|].
  cbn [day_profit_per_share pct_change]. split; intro H.
  - pose proof (Sign.sub_gt_pos _ _ H) as Hd.
    split; [exact Hd|]. apply Sign.percent_nonneg; assumption.
  - pose proof (F64.sub_lt_neg _ _ H) as Hd.
    split; [exact Hd|]. apply Sign.percent_nonpos; assumption.
Qed.

Lemma quote_follows_price_witness :
  (0 <? close (flat_row "2024-01-02" 9.00)) = true /\
  (close (flat_row "2024-01-02" 9.00) <? infinity) = true /\
  exists data,
    get_stock_data_individual "X" "Alpha" (ProviderFrame falling)
    = (Some data, []) /\
    (0 <? day_profit_per_share data) = true.
Proof.
  split; [reflexivity|]. split; [reflexivity|].
  destruct (quote_follows_price "X" "Alpha" []
              (flat_row "2024-01-02" 9.00) (flat_row "2024-01-03" 9.50)
              eq_refl eq_refl) as (data & E & Up & _).
  exists data. split; [exact E|]. exact (proj1 (Up eq_refl)).
Defined.

(** * Holdings as loaded *)

Lemma of_M_bind {A B} (m : M A) (k : A -> M B) :
  of_M (bind m k) = rbind (of_M m) (fun a => of_M (k a)).
Proof.
  destruct m as [tr [a|e]]; cbn; [|reflexivity].
  destruct (k a) as [tr' r]. reflexivity.
Qed.

Lemma rbind_ext {A B} (m : R A) (k k' : A -> R B) :
  (forall a, k a = k' a) -> rbind m k = rbind m k'.
Proof.
  intro H. destruct m as [tr [a|e]]; cbn; [rewrite H|]; reflexivity.
Qed.

Lemma raw_accumulate_typed (st : LoopState) (h : Holding)
  (data : QuoteData) :
  raw_accumulate st (raw_of h) (code h) (name h) data
  = of_result (accumulate st h data).
Proof.
  unfold raw_accumulate, raw_of, getitem. cbn.
  destruct h as [c n q p s]. cbn.
  unfold accumulate, position_metrics. cbn.
  destruct (py_truediv (current_price data - p) p); reflexivity.
Qed.

Lemma raw_loop_body_typed (st : LoopState)
  (input : Holding * provider_reply) :
  raw_loop_body st (raw_input input) = of_M (loop_body st input).
Proof.
  destruct input as [h reply].
  unfold raw_loop_body, raw_input, loop_body, call_fetch. cbn [fst snd].
  unfold raw_of at 1 2. cbn [raw_code raw_name getitem rlift rbind app].
  destruct (get_stock_data_individual (code h) (name h) reply)
    as [[d|] printed]; cbn [bind rbind].
  - rewrite raw_accumulate_typed. unfold lift, rlift.
    destruct (accumulate st h d); cbn; rewrite ?app_nil_r; reflexivity.
  - cbn. rewrite ?app_nil_r. reflexivity.
Qed.

Lemma raw_loop_typed (inputs : list (Holding * provider_reply)) :
  forall st, raw_loop st (map raw_input inputs) = of_M (loop st inputs).
Proof.
  induction inputs as [|input rest IH]; intro st; [reflexivity|].
  cbn [map raw_loop loop]. rewrite of_M_bind, raw_loop_body_typed.
  apply rbind_ext. exact IH.
Qed.

Lemma raw_cycle_typed (inputs : list (Holding * provider_reply)) :
  raw_cycle (map raw_input inputs) = of_M (cycle inputs).
Proof.
  unfold raw_cycle, cycle. rewrite of_M_bind, raw_loop_typed.
  apply rbind_ext. intro st. destruct (portfolio_data st); reflexivity.
Qed.

Lemma with_replies_typed (replies : nat -> provider_reply)
  (holdings : list Holding) :
  with_replies replies (map raw_of holdings)
  = map raw_input (with_replies replies holdings).
Proof.
  unfold with_replies. rewrite length_map.
  generalize (map replies (seq 0 (List.length holdings))).
  induction holdings as [|h hs IH]; intros [|r rs]; cbn; try reflexivity.
  rewrite IH. reflexivity.
Qed.

(** X9.  On entries that have their five keys the run from the file is the run on
    the typed holdings: the same events, and the same page or the same
    exception; no load error is shown. *)
Theorem typed_run_is_raw_run (holdings : list Holding)
  (replies : nat -> provider_reply) :
  raw_main (ReadList (map raw_of holdings)) replies
  = ([], of_M (main (with_replies replies holdings))).
Proof.
  unfold raw_main, load_holdings. f_equal.
  destruct holdings as [|h hs]; [reflexivity|].
  change (map raw_of (h :: hs)) with (raw_of h :: map raw_of hs) at 1.
  cbv iota. rewrite with_replies_typed.
  change (main (with_replies replies (h :: hs)))
    with (cycle (with_replies replies (h :: hs))).
  apply raw_cycle_typed.
Qed.

Lemma raw_loop_app (a b : list (RawHolding * provider_reply)) :
  forall st,
    raw_loop st (a ++ b) = rbind (raw_loop st a) (fun st' => raw_loop st' b).
Proof.
  induction a as [|input a IH]; intro st; cbn [app raw_loop].
  - unfold rret. cbn. destruct (raw_loop st b). reflexivity.
  - destruct (raw_loop_body st input) as [tr [st1|e]]; cbn; [|reflexivity].
    rewrite IH. destruct (raw_loop st1 a) as [tr1 [st2|e]]; cbn.
    + destruct (raw_loop st2 b) as [tr2 r]. rewrite app_assoc. reflexivity.
    + reflexivity.
Qed.

(** X10.  An entry without ["code"], or with it and without ["name"], ends the run
    with a [KeyError] on that key as soon as the loop reaches it: the
    provider is not called for it, and the trace is that of the entries
    before it. *)
Theorem missing_identity_key (front rest : list (RawHolding * provider_reply))
  (stock : RawHolding) (reply : provider_reply) (st st1 : LoopState)
  (tr : list event) :
  raw_loop st front = (tr, Done st1) ->
  (raw_code stock = None ->
   raw_loop st (front ++ (stock, reply) :: rest)
   = (tr, Failed (KeyError "code"))) /\
  (raw_code stock <> None -> raw_name stock = None ->
   raw_loop st (front ++ (stock, reply) :: rest)
   = (tr, Failed (KeyError "name"))).
Proof.
  intro Hfront. rewrite raw_loop_app, Hfront. cbn [rbind raw_loop].
  unfold raw_loop_body. split.
  - intros ->. cbn. rewrite app_nil_r. reflexivity.
  - intros Hc Hn. destruct (raw_code stock) as [c|]; [|congruence].
    rewrite Hn. cbn. rewrite app_nil_r. reflexivity.
Qed.

Lemma missing_identity_key_witness :
  let nameless := {| raw_code := Some "Y"%string; raw_name := None;
                     raw_quantity := Some 50; raw_cost_price := Some 4.00;
                     raw_stop_loss_pct := Some 0.1 |} in
  raw_code nameless <> None /\
  raw_name nameless = None /\
  raw_loop initial_state
    ([raw_input (alpha, ProviderFrame falling)]
     ++ (nameless, ProviderFrame rising) :: [])
  = ([EvFetch "X"; EvSleep 0.2], Failed (KeyError "name")).
Proof.
  intro nameless.
  assert (C : raw_code nameless <> None) by discriminate.
  split; [exact C|]. split; [reflexivity|].
  exact (proj2 (missing_identity_key
                  [raw_input (alpha, ProviderFrame falling)] []
                  nameless (ProviderFrame rising)
                  initial_state
                  (absorb initial_state
                     (alpha,
                      {| q_code := "X"; q_name := "Alpha";
                         current_price := 9.50;
                         pct_change := 5.5555555555555554;
                         day_profit_per_share := 0.5;
                         history_df := falling |}))
                  [EvFetch "X"; EvSleep 0.2] eq_refl) C eq_refl).
Defined.

(** X11.  The keys ["quantity"], ["cost_price"] and ["stop_loss_pct"] are read
    only once the fetch has returned a quote.  With no quote the entry is
    skipped like any other, whatever keys it lacks.  With a quote, the first
    thing to go wrong ends the run after the fetch and before the sleep, in
    this order: a missing quantity, a missing cost price, a zero cost price,
    a missing stop-loss threshold. *)
Theorem numeric_keys_read_after_fetch (st : LoopState) (stock : RawHolding)
  (reply : provider_reply) (c n : string) (data : option QuoteData)
  (printed : list string) :
  raw_code stock = Some c ->
  raw_name stock = Some n ->
  get_stock_data_individual c n reply = (data, printed) ->
  match data with
  | None =>
    raw_loop_body st (stock, reply)
    = (EvFetch c :: map EvPrint printed ++ [EvSleep 0.2], Done st)
  | Some d =>
    (raw_quantity stock = None ->
     raw_loop_body st (stock, reply)
     = (EvFetch c :: map EvPrint printed, Failed (KeyError "quantity"))) /\
    (raw_quantity stock <> None -> raw_cost_price stock = None ->
     raw_loop_body st (stock, reply)
     = (EvFetch c :: map EvPrint printed, Failed (KeyError "cost_price"))) /\
    (forall p,
        raw_quantity stock <> None -> raw_cost_price stock = Some p ->
        (p =? 0) = true ->
        raw_loop_body st (stock, reply)
        = (EvFetch c :: map EvPrint printed,
           Failed (Uncaught ZeroDivisionError))) /\
    (forall p,
        raw_quantity stock <> None -> raw_cost_price stock = Some p ->
        (p =? 0) = false -> raw_stop_loss_pct stock = None ->
        raw_loop_body st (stock, reply)
        = (EvFetch c :: map EvPrint printed,
           Failed (KeyError "stop_loss_pct")))
  end.
Proof.
  intros Hc Hn Hf. unfold raw_loop_body. rewrite Hc, Hn.
  cbn [getitem rlift rbind app]. rewrite Hf.
  destruct data as [d|]; cbn [rbind].
  - unfold raw_accumulate, rlift.
    repeat split.
    + intros ->. cbn. rewrite app_nil_r. reflexivity.
    + intros Hq ->. destruct (raw_quantity stock); [|congruence].
      cbn. rewrite app_nil_r. reflexivity.
    + intros p Hq -> Hz. destruct (raw_quantity stock); [|congruence].
      cbn [getitem]. unfold py_truediv. rewrite Hz. cbn.
      rewrite app_nil_r. reflexivity.
    + intros p Hq -> Hz ->. destruct (raw_quantity stock); [|congruence].
      cbn [getitem]. unfold py_truediv. rewrite Hz. cbn.
      rewrite app_nil_r. reflexivity.
  - cbn. rewrite ?app_nil_r. reflexivity.
Qed.

Lemma numeric_keys_read_after_fetch_witness :
  let bare := {| raw_code := Some "Y"%string; raw_name := Some "Beta"%string;
                 raw_quantity := None; raw_cost_price := None;
                 raw_stop_loss_pct := None |} in
  raw_loop_body initial_state (bare, ProviderFrame [])
  = ([EvFetch "Y"; EvSleep 0.2], Done initial_state).
Proof.
  intro bare.
  exact (numeric_keys_read_after_fetch initial_state bare (ProviderFrame [])
           "Y" "Beta" None [] eq_refl eq_refl eq_refl).
Defined.

Lemma raw_loop_body_head (st : LoopState) (stock : RawHolding)
  (reply : provider_reply) (c n : string) :
  raw_code stock = Some c -> raw_name stock = Some n ->
  exists tr, fst (raw_loop_body st (stock, reply)) = EvFetch c :: tr.
Proof.
  intros Hc Hn. unfold raw_loop_body. rewrite Hc, Hn.
  cbn [getitem rlift rbind app].
  destruct (get_stock_data_individual c n reply) as [[d|] printed];
    cbn [rbind].
  - unfold rlift. destruct (raw_accumulate st stock c n d); cbn; eauto.
  - cbn. eauto.
Qed.

(** X12.  When [holdings.json] cannot be opened or parsed, the page shows the
    not-found message and stops; when it holds an empty list the page stops
    with no message.  The provider is called at all exactly when the file
    was read and its first entry has a code and a name. *)
Theorem run_without_holdings (replies : nat -> provider_reply) :
  raw_main ReadRaised replies = ([load_error_message], ([], Done Stopped)) /\
  raw_main (ReadList []) replies = ([], ([], Done Stopped)) /\
  (forall file,
      fetch_calls (fst (snd (raw_main file replies))) <> [] <->
      exists stock rest c n,
        file = ReadList (stock :: rest) /\
        raw_code stock = Some c /\ raw_name stock = Some n).
Proof.
  split; [reflexivity|]. split; [reflexivity|].
  intros [|[|stock rest]]; split;
    try (intro H; exfalso; apply H; reflexivity);
    try (intros (s & r & c & n & E & _); discriminate E).
  - intro H. unfold raw_main, load_holdings in H. cbn [snd] in H.
    unfold with_replies, raw_cycle in H. cbn [List.length seq map combine] in H.
    cbn [raw_loop] in H. unfold raw_loop_body in H.
    destruct (raw_code stock) as [c|] eqn:Hc;
      [|exfalso; apply H; reflexivity].
    destruct (raw_name stock) as [n|] eqn:Hn;
      [|exfalso; apply H; reflexivity].
    exists stock, rest, c, n. auto.
  - intros (s & r & c & n & [= <- <-] & Hc & Hn).
    unfold raw_main, load_holdings. cbn [snd].
    unfold with_replies, raw_cycle. cbn [List.length seq map combine].
    cbn [raw_loop].
    destruct (raw_loop_body_head initial_state stock (replies 0%nat) c n Hc Hn)
      as (tr & E).
    destruct (raw_loop_body initial_state (stock, replies 0%nat))
      as [tr0 [st1|e]]; cbn [fst] in E; subst tr0; cbn [rbind].
    + destruct (raw_loop st1 _) as [tr1 [st2|e]]; cbn [rbind].
      * destruct (portfolio_data st2); cbn; discriminate.
      * cbn. discriminate.
    + cbn. discriminate.
Qed.

(** X13.  A fetched holding whose cost price is zero ends the whole run with
    [ZeroDivisionError] right after its fetch: no sleep follows, the
    holdings after it are not fetched, and nothing gathered before it is
    shown. *)
Theorem zero_cost_ends_run (front rest : list (Holding * provider_reply))
  (input : Holding * provider_reply) (data : QuoteData) :
  (forall p, In p (successes front) -> (cost_price (fst p) =? 0) = false) ->
  fetched input = Some data ->
  (cost_price (fst input) =? 0) = true ->
  main (front ++ input :: rest) =
  (flat_map iteration_events front ++ fetch_events input,
   Raise ZeroDivisionError).
Proof.
  intros Hc Hf Hz.
  assert (E : main (front ++ input :: rest) = cycle (front ++ input :: rest))
    by (destruct front; reflexivity).
  rewrite E. unfold cycle.
  rewrite (zero_cost_stops_loop front rest input data initial_state Hc Hf Hz).
  reflexivity.
Qed.

Lemma zero_cost_ends_run_witness :
  let free := {| code := "Z"; name := "Gift"; quantity := 10;
                 cost_price := 0; stop_loss_pct := 0.08 |} in
  fetched (free, ProviderFrame rising) <> None /\
  (cost_price free =? 0) = true /\
  main ([(alpha, ProviderFrame falling)]
        ++ (free, ProviderFrame rising) :: [(beta, ProviderFrame rising)])
  = ([EvFetch "X"; EvSleep 0.2; EvFetch "Z"], Raise ZeroDivisionError).
Proof.
  intro free. split; [discriminate|]. split; [reflexivity|].
  refine (zero_cost_ends_run [(alpha, ProviderFrame falling)]
            [(beta, ProviderFrame rising)] (free, ProviderFrame rising)
            _ _ eq_refl eq_refl).
  intros p [<-|[]]. reflexivity.
Defined.

(** * The console log *)

Lemma fetch_prints (input : Holding * provider_reply) :
  snd (get_stock_data_individual (code (fst input)) (name (fst input))
         (snd input)) = error_line input.
Proof.
  destruct input as [h [e|df]]; unfold error_line; cbn [fst snd];
    [reflexivity|].
  destruct df as [|r df']; [reflexivity|].
  destruct (fetch_frame_some (code h) (name h) (r :: df')) as (data & E);
    [discriminate|].
  rewrite E. reflexivity.
Qed.

Lemma printed_lines_app (a b : list event) :
  printed_lines (a ++ b) = printed_lines a ++ printed_lines b.
Proof.
  induction a as [|[c|l|s] a IH]; cbn [app printed_lines]; rewrite ?IH;
    reflexivity.
Qed.

Lemma printed_lines_prints (lines : list string) :
  printed_lines (map EvPrint lines) = lines.
Proof.
  induction lines as [|l ls IH]; cbn [map printed_lines]; rewrite ?IH;
    reflexivity.
Qed.

Lemma iteration_prints (input : Holding * provider_reply) :
  printed_lines (iteration_events input) = error_line input.
Proof.
  unfold iteration_events, fetch_events.
  rewrite printed_lines_app. cbn [printed_lines].
  rewrite printed_lines_prints, app_nil_r. apply fetch_prints.
Qed.

(** X14.  In a run that ends normally the console holds one line per holding
    whose provider call raised, with its code and the error, in the order of
    the holdings, and nothing else: a holding whose history came back empty
    is dropped without a trace. *)
Theorem log_has_provider_errors (inputs : list (Holding * provider_reply))
  (st : LoopState) :
  outcome (loop initial_state inputs) = Ok st ->
  printed_lines (events (cycle inputs)) = flat_map error_line inputs.
Proof.
  intro H. rewrite cycle_events.
  rewrite (loop_completes inputs initial_state
             (loop_ok_nonzero inputs _ _ H)).
  cbn [events fst]. clear H.
  induction inputs as [|input rest IH]; [reflexivity|].
  cbn [flat_map]. rewrite printed_lines_app, iteration_prints, IH.
  reflexivity.
Qed.

Lemma log_has_provider_errors_witness :
  let inputs := [(alpha, ProviderFrame []);
                 (beta, ProviderRaised "Connection aborted.");
                 (alpha, ProviderFrame falling)] in
  exists st,
    outcome (loop initial_state inputs) = Ok st /\
    printed_lines (events (cycle inputs))
    = [failure_line "Y" "Connection aborted."].
Proof.
  cbv zeta.
  set (inputs := [(alpha, ProviderFrame []);
                  (beta, ProviderRaised "Connection aborted.");
                  (alpha, ProviderFrame falling)]).
  set (st := fold_left absorb (successes inputs) initial_state).
  assert (E : outcome (loop initial_state inputs) = Ok st) by reflexivity.
  exists st. split; [exact E|].
  rewrite (log_has_provider_errors inputs st E). reflexivity.
Defined.

(** * Position figures on binary64 *)

Lemma product_nonneg (d q : float) :
  (0 <? d) = true -> (0 <? q) = true -> (q <? infinity) = true ->
  (0 <=? d * q) = true.
Proof.
  rewrite !ltb_spec, leb_spec, mul_spec, Sign.infinity_repr.
  change (Prim2SF 0) with (S754_zero false). intros Hd Hq Hf.
  destruct (Sign.pos_finite_repr _ Hq Hf) as (m & e & ->).
  apply Sign.signed_nonneg, Sign.SFmul_signed, Sign.pos_signed. exact Hd.
Qed.

Lemma product_nonpos (d q : float) :
  (d <? 0) = true -> (0 <? q) = true -> (q <? infinity) = true ->
  (d * q <=? 0) = true.
Proof.
  rewrite !ltb_spec, leb_spec, mul_spec, Sign.infinity_repr.
  change (Prim2SF 0) with (S754_zero false). intros Hd Hq Hf.
  destruct (Sign.pos_finite_repr _ Hq Hf) as (m & e & ->).
  apply Sign.signed_nonpos, Sign.SFmul_signed, Sign.neg_signed. exact Hd.
Qed.

(** X15.  For a holding with a positive finite cost price and quantity, the
    figures follow the price: above the cost price, the unrealized profit
    and its percentage are not negative; below it, they are not positive.
    Rounding can take them to zero, never to the other side. *)
Theorem profit_follows_price (stock : Holding) (data : QuoteData) :
  (0 <? cost_price stock) = true ->
  (cost_price stock <? infinity) = true ->
  (0 <? quantity stock) = true ->
  (quantity stock <? infinity) = true ->
  exists pm,
    position_metrics stock data = Ok pm /\
    ((cost_price stock <? current_price data) = true ->
     (0 <=? profit pm) = true /\ (0 <=? profit_pct pm) = true) /\
    ((current_price data <? cost_price stock) = true ->
     (profit pm <=? 0) = true /\ (profit_pct pm <=? 0) = true).
Proof.
  intros Hp Hpf Hq Hqf.
  exists (metrics (stock, data)).
  split; [apply position_metrics_ok, F64.pos_nonzero, Hp|].
  cbn [metrics profit profit_pct]. unfold unrealized_profit,
    unrealized_profit_pct. cbn [fst snd].
  split; intro H.
  - pose proof (Sign.sub_gt_pos _ _ H) as Hd. split.
    + apply product_nonneg; assumption.
    + apply Sign.percent_nonneg; assumption.
  - pose proof (F64.sub_lt_neg _ _ H) as Hd. split.
    + apply product_nonpos; assumption.
    + apply Sign.percent_nonpos; assumption.
Qed.

Lemma profit_follows_price_witness :
  let data := {| q_code := "X"; q_name := "Alpha"; current_price := 9.50;
                 pct_change := 5.5555555555555554;
                 day_profit_per_share := 0.5; history_df := falling |} in
  (0 <? cost_price alpha) = true /\
  (cost_price alpha <? infinity) = true /\
  (0 <? quantity alpha) = true /\
  (quantity alpha <? infinity) = true /\
  (current_price data <? cost_price alpha) = true /\
  exists pm,
    position_metrics alpha data = Ok pm /\ (profit_pct pm <=? 0) = true.
Proof.
  intro data. do 5 (split; [reflexivity|]).
  destruct (profit_follows_price alpha data eq_refl eq_refl eq_refl eq_refl)
    as (pm & E & _ & Down).
  exists pm. split; [exact E|]. exact (proj2 (Down eq_refl)).
Defined.
